(** * Blogicum: visibility and ownership rules of the blog views

    A shallow embedding of [blogicum/blog/views.py] and
    [blogicum/blog/forms.py].  The database is a record of tables, each a
    finite map from primary key to row; a view is a function from the
    store, the server clock and the request to a result (and, for the
    views that write, to the next store).  Exceptions raised by a view
    ([Http404] and the like) are results of their own.  The views
    [edit_profile] and [registration], which write users only, answer
    with a response type of their own and come after the others. *)

From Stdlib Require Import ZArith.
From stdpp Require Import gmap strings list fin_maps sorting.

Local Open Scope Z_scope.

(** ** The data model

    A model instance is a pair of its primary key and its row; a foreign
    key is the primary key of the row it refers to. *)

Module User.
Record t := mk {
  username : string;
  first_name : string;
  last_name : string;
  email : string
}.
End User.

Module Category.
Record t := mk {
  title : string;
  slug : string;
  is_published : bool
}.
End Category.

Module Location.
Record t := mk { name : string }.
End Location.

Module Post.
Record t := mk {
  title : string;
  text : string;
  pub_date : Z;
  author : nat;
  location : option nat;
  category : option nat;
  image : option string;
  is_published : bool
}.
End Post.

Module Comment.
Record t := mk {
  text : string;
  created_at : Z;
  post : nat;
  author : nat
}.
End Comment.

Record Store := mkStore {
  users : gmap nat User.t;
  categories : gmap nat Category.t;
  locations : gmap nat Location.t;
  posts : gmap nat Post.t;
  comments : gmap nat Comment.t
}.

(** ** Requests and results *)

Record Request := mkRequest {
  method : string;
  get_full_path : string;            (* the path with its query string *)
  user : option (nat * User.t);      (* [None] is the anonymous user *)
  GET : gmap string string;
  POST : gmap string string;
  FILES : gmap string string
}.

Definition is_authenticated (request : Request) : bool :=
  match user request with Some _ => true | None => false end.

(** [request.user == obj] for a user with primary key [pk]: model instances
    compare by primary key, and the anonymous user equals no row. *)
Definition user_eq (request : Request) (pk : nat) : bool :=
  match user request with
  | Some (k, _) => bool_decide (k = pk)
  | None => false
  end.

Inductive Url :=
| url_post_detail (id : nat)          (* 'blog:post_detail' *)
| url_profile (username : string)     (* 'blog:profile' *)
| url_login (next : string).          (* settings.LOGIN_URL?next=... *)

(** A form object: the data it was bound to, if any, and its instance. *)
Record Form (I : Type) := mkForm {
  form_data : option (gmap string string * gmap string string);
  form_instance : option I
}.
Arguments mkForm {I} _ _.
Arguments form_data {I} _.
Arguments form_instance {I} _.

(** A post of a listing, annotated with [comment_count]. *)
Record PostRow := mkRow {
  pk : nat;
  row : Post.t;
  comment_count : nat
}.

Record Paginator := mkPaginator {
  pg_object_list : list PostRow;
  per_page : Z
}.

Record Page := mkPage {
  object_list : list PostRow;
  number : Z;
  paginator : Paginator
}.

Inductive Context :=
| ctx_index (page_obj : Page)
| ctx_detail (post : nat * Post.t) (comments : list (nat * Comment.t))
             (form : option (Form (nat * Comment.t)))
| ctx_category (category : nat * Category.t) (page_obj : Page)
| ctx_profile (profile : nat * User.t) (page_obj : Page)
| ctx_create (form : Form (nat * Post.t))
| ctx_comment (form : option (Form (nat * Comment.t))) (comment : nat * Comment.t).

Inductive HttpResponse :=
| Render (template : string) (context : Context)
| Redirect (to : Url)
| NotAllowed (permitted : list string).

Inductive Exception :=
| Http404 (msg : string)
| MultipleObjectsReturned
| PageNotAnInteger
| EmptyPage.

(** What a view gives back: a response, or the exception it raised. *)
Definition Result : Type := Exception + HttpResponse.

(** The HTTP status the framework answers with. *)
Definition status_code (r : Result) : Z :=
  match r with
  | inr (Render _ _) => 200
  | inr (Redirect _) => 302
  | inr (NotAllowed _) => 405
  | inl (Http404 _) => 404
  | inl _ => 500
  end.

(** An exception propagates out of the view that called the raising code. *)
Definition bind_exc {A B} (e : Exception + A) (k : A → Exception + B)
  : Exception + B :=
  match e with
  | inl exc => inl exc
  | inr a => k a
  end.

Notation "'let!' x := e 'in' k" := (bind_exc e (fun x => k))
  (at level 10, x pattern, e at level 100, k at level 200).

(** ** Querysets

    A queryset is the list of the instances it holds.  [select_related]
    only fetches the related rows along with the posts; the rows a
    queryset holds are those of the table. *)

Definition objects {A} (table : gmap nat A) : list (nat * A) :=
  map_to_list table.

(** [qs.get()] behind [get_object_or_404]: one match is returned, none is
    [Http404], several are [MultipleObjectsReturned]. *)
Definition get_object_or_404 {A} (model : string) (qs : list (nat * A))
  : Exception + (nat * A) :=
  match qs with
  | [] => inl (Http404 ("No " +:+ model +:+ " matches the given query."))
  | [x] => inr x
  | _ :: _ :: _ => inl MultipleObjectsReturned
  end.

(** [post.category] of a post fetched with [select_related('category')]:
    the joined row, [None] when there is none. *)
Definition related_category (st : Store) (p : Post.t) : option Category.t :=
  Post.category p ≫= λ k, categories st !! k.

(** The lookup [category__is_published=True]: the post is joined with its
    category, and the joined row is published. *)
Definition category__is_published (st : Store) (p : Post.t) : bool :=
  match related_category st p with
  | Some c => Category.is_published c
  | None => false
  end.

(** [Count('comments')]: the comments whose post is [k]. *)
Definition count_comments (st : Store) (k : nat) : nat :=
  length (filter (λ c, Comment.post c.2 = k) (objects (comments st))).

Definition annotate (st : Store) (qs : list (nat * Post.t)) : list PostRow :=
  (λ x, mkRow x.1 x.2 (count_comments st x.1)) <$> qs.

(** [order_by('-pub_date')]: no older post before a newer one.  The database
    leaves the order of posts of one date open; the sort fixes one. *)
Definition newest_first : relation PostRow :=
  λ a b, Post.pub_date (row b) ≤ Post.pub_date (row a).

Global Instance newest_first_dec : RelDecision newest_first.
Proof. intros a b. unfold newest_first. apply _. Defined.

Definition order_by_pub_date_desc (qs : list PostRow) : list PostRow :=
  merge_sort newest_first qs.

(** [order_by('created_at')] *)
Definition oldest_first : relation (nat * Comment.t) :=
  λ a b, Comment.created_at a.2 ≤ Comment.created_at b.2.

Global Instance oldest_first_dec : RelDecision oldest_first.
Proof. intros a b. unfold oldest_first. apply _. Defined.

Definition order_by_created_at (qs : list (nat * Comment.t))
  : list (nat * Comment.t) :=
  merge_sort oldest_first qs.

(** ** The paginator (django.core.paginator, with its defaults
    [orphans=0] and [allow_empty_first_page=True]); its methods, which
    call Python's [int], follow with the views *)

Inductive PageArg :=
| arg_none                 (* the request has no 'page' parameter *)
| arg_str (s : string)
| arg_int (n : Z).

Definition page_arg (o : option string) : PageArg :=
  match o with
  | None => arg_none
  | Some s => arg_str s
  end.

Definition count (p : Paginator) : Z := Z.of_nat (length (pg_object_list p)).

(** [ceil(hits / per_page)] with [hits = max(1, count - orphans)] *)
Definition num_pages (p : Paginator) : Z :=
  let hits := Z.max 1 (count p - 0) in
  - ((- hits) `div` per_page p).

(** [object_list[bottom:top]] for [0 <= bottom] *)
Definition slice {A} (l : list A) (bottom top : Z) : list A :=
  take (Z.to_nat (top - bottom)) (drop (Z.to_nat bottom) l).

(** ** Forms (forms.py)

    A bound form reads from the submitted data the fields its [Meta.fields]
    declares and nothing else. *)

Definition PostForm_fields : list string :=
  ["title"; "text"; "pub_date"; "location"; "category"; "image"].

Definition CommentForm_fields : list string := ["text"].

(** The submitted data a form with these fields reads. *)
Definition bound_data (fields : list string) (data : gmap string string)
  : gmap string string :=
  filter (λ kv, kv.1 ∈ fields) data.

(** The cleaned data of a valid [PostForm]. *)
Record PostData := mkPostData {
  cd_title : string;
  cd_text : string;
  cd_pub_date : Z;
  cd_location : option nat;
  cd_category : option nat;
  cd_image : option string
}.

(** [form.save(commit=False)] on a form with an instance: the fields of the
    form are written to the instance, the other fields are kept. *)
Definition construct_instance (cd : PostData) (instance : Post.t) : Post.t :=
  Post.mk (cd_title cd) (cd_text cd) (cd_pub_date cd) (Post.author instance)
          (cd_location cd) (cd_category cd) (cd_image cd)
          (Post.is_published instance).

(** Strings are text in UTF-8, a sequence of bytes.  [str.isspace] holds
    of the characters U+0009 to U+000D, U+001C to U+0020, U+0085, U+00A0,
    U+1680, U+2000 to U+200A, U+2028, U+2029, U+202F, U+205F and U+3000,
    which take one, two or three bytes. *)
Definition code (a : Strings.Ascii.ascii) : nat :=
  Strings.Ascii.nat_of_ascii a.

(** The whitespace characters of one byte. *)
Definition isspace (a : Strings.Ascii.ascii) : bool :=
  let n := code a in
  bool_decide (9 ≤ n ≤ 13)%nat || bool_decide (28 ≤ n ≤ 32)%nat.

(** The whitespace characters of two bytes: U+0085 and U+00A0. *)
Definition isspace2 (a b : Strings.Ascii.ascii) : bool :=
  bool_decide (code a = 194%nat)
  && (bool_decide (code b = 133%nat) || bool_decide (code b = 160%nat)).

(** The whitespace characters of three bytes. *)
Definition isspace3 (a b c : Strings.Ascii.ascii) : bool :=
  let x := code a in
  let y := code b in
  let z := code c in
  bool_decide (x = 225 ∧ y = 154 ∧ z = 128)%nat                   (* U+1680 *)
  || bool_decide (x = 226 ∧ y = 128                (* U+2000 to U+200A, *)
                  ∧ (128 ≤ z ≤ 138 ∨ z = 168 ∨ z = 169 ∨ z = 175))%nat
                                          (* U+2028, U+2029 and U+202F *)
  || bool_decide (x = 226 ∧ y = 129 ∧ z = 159)%nat                (* U+205F *)
  || bool_decide (x = 227 ∧ y = 128 ∧ z = 128)%nat.               (* U+3000 *)

Section StripHead.
(** The characters to strip, by the bytes they take. *)
Variable w1 : Strings.Ascii.ascii → bool.
Variable w2 : Strings.Ascii.ascii → Strings.Ascii.ascii → bool.
Variable w3 :
  Strings.Ascii.ascii → Strings.Ascii.ascii → Strings.Ascii.ascii → bool.

(** The string starts with one of the characters. *)
Definition starts_with (s : string) : bool :=
  match s with
  | String a s1 =>
      w1 a
      || match s1 with
         | String b s2 =>
             w2 a b
             || match s2 with
                | String c _ => w3 a b c
                | EmptyString => false
                end
         | EmptyString => false
         end
  | EmptyString => false
  end.

(** The string without the characters it starts with. *)
Fixpoint strip_head (s : string) : string :=
  match s with
  | String a s1 =>
      if w1 a then strip_head s1
      else
        match s1 with
        | String b s2 =>
            if w2 a b then strip_head s2
            else
              match s2 with
              | String c s3 => if w3 a b c then strip_head s3 else s
              | EmptyString => s
              end
        | EmptyString => s
        end
  | EmptyString => EmptyString
  end.
End StripHead.

Definition lstrip (s : string) : string :=
  strip_head isspace isspace2 isspace3 s.

(** At the end of the string the bytes of a character come last first. *)
Definition rstrip (s : string) : string :=
  String.rev
    (strip_head isspace (λ b a, isspace2 a b) (λ c b a, isspace3 a b c)
       (String.rev s)).

(** [str.strip()] *)
Definition strip (s : string) : string := rstrip (lstrip s).

(** The string holds the null character. *)
Fixpoint has_null (s : string) : bool :=
  match s with
  | EmptyString => false
  | String a s' => bool_decide (code a = 0%nat) || has_null s'
  end.

(** Modelled from the spec: the declaration of [Comment.text] is in
    models.py, which is not among the sources; the spec has it as the
    single free-text field of the comment form, and an empty text fails
    validation.  The form field of a required text field strips the
    value, rejects an absent or empty one and one that holds a null
    character; the cleaned value is the stripped text. *)
Definition CommentForm_clean (data : gmap string string) : option string :=
  match bound_data CommentForm_fields data !! "text" with
  | None => None
  | Some value =>
      let value := strip value in
      if bool_decide (value = EmptyString) then None
      else if has_null value then None
      else Some value
  end.

(** ** Writes to the store *)

Definition set_posts (st : Store) (m : gmap nat Post.t) : Store :=
  mkStore (users st) (categories st) (locations st) m (comments st).

Definition set_comments (st : Store) (m : gmap nat Comment.t) : Store :=
  mkStore (users st) (categories st) (locations st) (posts st) m.

(** The primary key the database gives to a new row: above every key of
    the table. *)
Definition next_pk {A} (table : gmap nat A) : nat :=
  S (max_list (objects table).*1).

(** Modelled from the spec: what deleting a post does to its comments is
    declared in models.py ([on_delete] of [Comment.post]), not among the
    sources; the spec has every comment required to be associated to one
    post, so the comments of a deleted post go with it. *)
Definition delete_post (st : Store) (id : nat) : Store :=
  mkStore (users st) (categories st) (locations st)
          (delete id (posts st))
          (filter (λ kv, Comment.post kv.2 ≠ id) (comments st)).

Definition delete_comment_row (st : Store) (id : nat) : Store :=
  set_comments st (delete id (comments st)).

(** ** Decorators *)

(** [@login_required]: the view runs for an authenticated user, who is
    [request.user] in its body; anyone else is sent to the login page,
    with [request.get_full_path()] as the way back. *)
Definition login_required (request : Request) (st : Store)
    (view : nat * User.t → Store * Result) : Store * Result :=
  match user request with
  | Some u => view u
  | None => (st, inr (Redirect (url_login (get_full_path request))))
  end.

(** [@require_http_methods(request_method_list)] *)
Definition require_http_methods (request_method_list : list string)
    (request : Request) (st : Store) (view : Store * Result)
  : Store * Result :=
  if bool_decide (method request ∉ request_method_list)
  then (st, inr (NotAllowed request_method_list))
  else view.

(** ** The views (views.py) *)

Section Views.
(** Python's [int] on a string: [None] where it raises [ValueError]. *)
Variable int_of_str : string → option Z.

(** Validation of the fields of a post as models.py (not among the
    sources) declares them: from the store, the instance of the form and
    the data and files the form reads, the cleaned data or [None]. *)
Variable PostForm_clean :
  Store → option (nat * Post.t) → gmap string string → gmap string string
  → option PostData.

(** The default of [Post.is_published], declared in models.py. *)
Variable default_is_published : bool.

Definition PostForm_is_valid (st : Store) (form : Form (nat * Post.t))
  : option PostData :=
  match form_data form with
  | None => None
  | Some (data, files) =>
      PostForm_clean st (form_instance form)
        (bound_data PostForm_fields data) (bound_data PostForm_fields files)
  end.

(** The methods of the paginator.  [int(number)] of [validate_number]: *)
Definition py_int (a : PageArg) : option Z :=
  match a with
  | arg_none => None               (* TypeError *)
  | arg_str s => int_of_str s
  | arg_int n => Some n
  end.

Definition validate_number (p : Paginator) (number : PageArg)
  : Exception + Z :=
  match py_int number with
  | None => inl PageNotAnInteger
  | Some n =>
      if bool_decide (n < 1) then inl EmptyPage
      else if bool_decide (n > num_pages p) then inl EmptyPage
      else inr n
  end.

Definition page (p : Paginator) (number : PageArg) : Exception + Page :=
  let! number := validate_number p number in
  let bottom := (number - 1) * per_page p in
  let top := bottom + per_page p in
  let top := if bool_decide (top + 0 >= count p) then count p else top in
  inr (mkPage (slice (pg_object_list p) bottom top) number p).

Definition get_page (p : Paginator) (number : PageArg) : Exception + Page :=
  match validate_number p number with
  | inr n => page p (arg_int n)
  | inl PageNotAnInteger => page p (arg_int 1)
  | inl EmptyPage => page p (arg_int (num_pages p))
  | inl exc => inl exc
  end.

(** ** The views that only read *)

(** The lines each listing view ends with: a paginator of ten over the
    listing, and the page the request names. *)
Definition paginate (request : Request) (post_list : list PostRow)
  : Exception + Page :=
  let paginator := mkPaginator post_list 10 in
  let page_number := page_arg (GET request !! "page") in
  get_page paginator page_number.

Definition index_post_list (st : Store) (now : Z) : list PostRow :=
  order_by_pub_date_desc (annotate st (
    filter (λ x, Post.category x.2 ≠ None) (                  (* exclude *)
      filter (λ x, Post.is_published x.2
                   ∧ category__is_published st x.2
                   ∧ Post.pub_date x.2 ≤ now)
             (objects (posts st))))).

Definition index (st : Store) (now : Z) (request : Request) : Result :=
  let post_list := index_post_list st now in
  let! page_obj := paginate request post_list in
  inr (Render "blog/index.html" (ctx_index page_obj)).

Definition post_comments (st : Store) (id : nat) : list (nat * Comment.t) :=
  order_by_created_at
    (filter (λ c, Comment.post c.2 = id) (objects (comments st))).

Definition post_detail (st : Store) (now : Z) (request : Request) (id : nat)
  : Result :=
  let! post := get_object_or_404 "Post"
                 (filter (λ x, x.1 = id) (objects (posts st))) in
  let is_author :=
    is_authenticated request && user_eq request (Post.author post.2) in
  let is_published :=
    Post.is_published post.2
    && match related_category st post.2 with
       | None => true
       | Some c => Category.is_published c
       end
    && bool_decide (Post.pub_date post.2 ≤ now) in
  if negb is_published && negb is_author
  then inl (Http404 "Post not found")
  else
    let comments := post_comments st post.1 in
    inr (Render "blog/detail.html"
           (ctx_detail post comments
              (if is_authenticated request
               then Some (mkForm None None) else None))).

Definition category_post_list (st : Store) (now : Z) (category : nat)
  : list PostRow :=
  order_by_pub_date_desc (annotate st (
    filter (λ x, Post.category x.2 = Some category
                 ∧ Post.is_published x.2
                 ∧ Post.pub_date x.2 ≤ now)
           (objects (posts st)))).

Definition category_posts (st : Store) (now : Z) (request : Request)
    (category_slug : string) : Result :=
  let! category := get_object_or_404 "Category"
                     (filter (λ c, Category.slug c.2 = category_slug
                                   ∧ Category.is_published c.2)
                             (objects (categories st))) in
  let post_list := category_post_list st now category.1 in
  let! page_obj := paginate request post_list in
  inr (Render "blog/category.html" (ctx_category category page_obj)).

Definition profile_post_list (st : Store) (author : nat) : list PostRow :=
  order_by_pub_date_desc (annotate st (
    filter (λ x, Post.author x.2 = author) (objects (posts st)))).

Definition profile (st : Store) (request : Request) (username : string)
  : Result :=
  let! author := get_object_or_404 "User"
                   (filter (λ u, User.username u.2 = username)
                           (objects (users st))) in
  let post_list := profile_post_list st author.1 in
  let! page_obj := paginate request post_list in
  inr (Render "blog/profile.html" (ctx_profile author page_obj)).

(** ** The views that write *)

Definition post_create (st : Store) (request : Request) : Store * Result :=
  login_required request st (λ u,
    if bool_decide (method request = "POST") then
      let form := mkForm (Some (POST request, FILES request)) None in
      match PostForm_is_valid st form with
      | Some cd =>
          (* form.save(commit=False); post.author = request.user *)
          let post :=
            Post.mk (cd_title cd) (cd_text cd) (cd_pub_date cd) u.1
                    (cd_location cd) (cd_category cd) (cd_image cd)
                    default_is_published in
          (set_posts st (<[next_pk (posts st) := post]> (posts st)),
           inr (Redirect (url_profile (User.username u.2))))
      | None => (st, inr (Render "blog/create.html" (ctx_create form)))
      end
    else
      let form := mkForm None None in
      (st, inr (Render "blog/create.html" (ctx_create form)))).

Definition post_edit (st : Store) (request : Request) (post_id : nat)
  : Store * Result :=
  login_required request st (λ u,
    match get_object_or_404 "Post"
            (filter (λ x, x.1 = post_id) (objects (posts st))) with
    | inl exc => (st, inl exc)
    | inr post =>
        if bool_decide (Post.author post.2 ≠ u.1) then
          (st, inr (Redirect (url_post_detail post_id)))
        else if bool_decide (method request = "POST") then
          let form :=
            mkForm (Some (POST request, FILES request)) (Some post) in
          match PostForm_is_valid st form with
          | Some cd =>
              let saved := construct_instance cd post.2 in
              let saved :=                 (* post.author = request.user *)
                Post.mk (Post.title saved) (Post.text saved)
                        (Post.pub_date saved) u.1 (Post.location saved)
                        (Post.category saved) (Post.image saved)
                        (Post.is_published saved) in
              (set_posts st (<[post.1 := saved]> (posts st)),
               inr (Redirect (url_post_detail post_id)))
          | None => (st, inr (Render "blog/create.html" (ctx_create form)))
          end
        else
          let form := mkForm None (Some post) in
          (st, inr (Render "blog/create.html" (ctx_create form)))
    end).

Definition post_delete (st : Store) (request : Request) (post_id : nat)
  : Store * Result :=
  login_required request st (λ u,
    require_http_methods ["GET"; "POST"] request st (
      match get_object_or_404 "Post"
              (filter (λ x, x.1 = post_id) (objects (posts st))) with
      | inl exc => (st, inl exc)
      | inr post =>
          if bool_decide (Post.author post.2 ≠ u.1) then
            (st, inr (Redirect (url_post_detail post_id)))
          else if bool_decide (method request = "POST") then
            (delete_post st post.1,
             inr (Redirect (url_profile (User.username u.2))))
          else
            let form := mkForm None (Some post) in
            (st, inr (Render "blog/create.html" (ctx_create form)))
      end)).

Definition add_comment (st : Store) (now : Z) (request : Request)
    (post_id : nat) : Store * Result :=
  login_required request st (λ u,
    match get_object_or_404 "Post"
            (filter (λ x, x.1 = post_id) (objects (posts st))) with
    | inl exc => (st, inl exc)
    | inr post =>
        let st' :=
          match CommentForm_clean (POST request) with
          | Some text =>
              (* comment.author = request.user; comment.post = post *)
              let comment := Comment.mk text now post.1 u.1 in
              set_comments st
                (<[next_pk (comments st) := comment]> (comments st))
          | None => st
          end in
        (st', inr (Redirect (url_post_detail post_id)))
    end).

Definition edit_comment (st : Store) (request : Request)
    (post_id comment_id : nat) : Store * Result :=
  login_required request st (λ u,
    match get_object_or_404 "Comment"
            (filter (λ c, c.1 = comment_id ∧ Comment.post c.2 = post_id)
                    (objects (comments st))) with
    | inl exc => (st, inl exc)
    | inr comment =>
        if bool_decide (Comment.author comment.2 ≠ u.1) then
          (st, inr (Redirect (url_post_detail post_id)))
        else if bool_decide (method request = "POST") then
          let form := mkForm (Some (POST request, ∅)) (Some comment) in
          match CommentForm_clean (POST request) with
          | Some text =>
              let saved :=
                Comment.mk text (Comment.created_at comment.2)
                           (Comment.post comment.2)
                           (Comment.author comment.2) in
              (set_comments st (<[comment.1 := saved]> (comments st)),
               inr (Redirect (url_post_detail post_id)))
          | None =>
              (st, inr (Render "blog/comment.html"
                          (ctx_comment (Some form) comment)))
          end
        else
          let form := mkForm None (Some comment) in
          (st, inr (Render "blog/comment.html"
                      (ctx_comment (Some form) comment)))
    end).

Definition delete_comment (st : Store) (request : Request)
    (post_id comment_id : nat) : Store * Result :=
  login_required request st (λ u,
    require_http_methods ["GET"; "POST"] request st (
      match get_object_or_404 "Comment"
              (filter (λ c, c.1 = comment_id ∧ Comment.post c.2 = post_id)
                      (objects (comments st))) with
      | inl exc => (st, inl exc)
      | inr comment =>
          if bool_decide (Comment.author comment.2 ≠ u.1) then
            (st, inr (Redirect (url_post_detail post_id)))
          else if bool_decide (method request = "POST") then
            (delete_comment_row st comment.1,
             inr (Redirect (url_post_detail post_id)))
          else
            (st, inr (Render "blog/comment.html"
                        (ctx_comment None comment)))
      end)).
End Views.

(** The URL table: a request to one of the views that write. *)
Inductive Route :=
| route_post_create
| route_post_edit (post_id : nat)
| route_post_delete (post_id : nat)
| route_add_comment (post_id : nat)
| route_edit_comment (post_id comment_id : nat)
| route_delete_comment (post_id comment_id : nat).

Definition handle
    (PostForm_clean : Store → option (nat * Post.t) → gmap string string
                      → gmap string string → option PostData)
    (default_is_published : bool)
    (st : Store) (now : Z) (request : Request) (route : Route)
  : Store * Result :=
  match route with
  | route_post_create =>
      post_create PostForm_clean default_is_published st request
  | route_post_edit post_id => post_edit PostForm_clean st request post_id
  | route_post_delete post_id => post_delete st request post_id
  | route_add_comment post_id => add_comment st now request post_id
  | route_edit_comment post_id comment_id =>
      edit_comment st request post_id comment_id
  | route_delete_comment post_id comment_id =>
      delete_comment st request post_id comment_id
  end.

(** The request with other submitted data. *)
Definition with_POST (request : Request) (data : gmap string string)
  : Request :=
  mkRequest (method request) (get_full_path request) (user request)
            (GET request)
            data (FILES request).

(** The posts of page [n] of a listing paginated by ten. *)
Definition page_slice (l : list PostRow) (n : Z) : list PostRow :=
  take 10 (drop (Z.to_nat (10 * (n - 1))) l).

(** Post [id] with row [p] is on one of the pages of a listing. *)
Definition on_a_page (post_list : list PostRow) (id : nat) (p : Post.t)
  : Prop :=
  ∃ n r, 1 ≤ n ≤ num_pages (mkPaginator post_list 10)
         ∧ r ∈ page_slice post_list n ∧ pk r = id ∧ row r = p.

(** A response is page [n] of a listing. *)
Definition is_page_of (post_list : list PostRow) (pg : Page) : Prop :=
  ∃ n, 1 ≤ n ≤ num_pages (mkPaginator post_list 10)
       ∧ pg = mkPage (page_slice post_list n) n (mkPaginator post_list 10).

(** A page of ten of a listing that is ordered newest first. *)
Definition ten_newest_first (pg : Page) : Prop :=
  per_page (paginator pg) = 10
  ∧ StronglySorted newest_first (pg_object_list (paginator pg))
  ∧ 1 ≤ number pg
  ∧ object_list pg
    = take 10 (drop (Z.to_nat (10 * (number pg - 1)))
                    (pg_object_list (paginator pg)))
  ∧ StronglySorted newest_first (object_list pg)
  ∧ (length (object_list pg) ≤ 10)%nat.

(** Modelled from the spec: the declaration of [Category.slug] is in
    models.py, which is not among the sources; the spec has the slug as the
    identifier of a category, so no two categories share one. *)
Definition slug_unique (st : Store) : Prop :=
  ∀ k1 k2 c1 c2,
    categories st !! k1 = Some c1 → categories st !! k2 = Some c2 →
    Category.slug c1 = Category.slug c2 → k1 = k2.

(** The user model of the framework declares [username] unique. *)
Definition username_unique (st : Store) : Prop :=
  ∀ k1 k2 u1 u2,
    users st !! k1 = Some u1 → users st !! k2 = Some u2 →
    User.username u1 = User.username u2 → k1 = k2.

(** ** A small blog, for the examples

    Two users, a published and an unpublished category, and posts of each
    kind: public, without category, in the unpublished category,
    unpublished, and dated in the future of the clock [100]. *)

Module Example.
(** A stand-in for Python's [int]: strings of decimal digits. *)
Fixpoint digits (acc : Z) (s : string) : option Z :=
  match s with
  | EmptyString => Some acc
  | String a s' =>
      match Ascii.is_nat a with
      | Some d => digits (10 * acc + Z.of_nat d) s'
      | None => None
      end
  end.

Definition int_of_str (s : string) : option Z :=
  match s with
  | EmptyString => None
  | _ => digits 0 s
  end.

(** A stand-in for the validation of a post: title, text and a numeric
    [pub_date] are required, the other fields are left empty. *)
Definition PostForm_clean (st : Store) (instance : option (nat * Post.t))
    (data files : gmap string string) : option PostData :=
  match data !! "title", data !! "text", data !! "pub_date" with
  | Some title, Some text, Some d =>
      match int_of_str d with
      | Some pub_date =>
          Some (mkPostData title text pub_date None None None)
      | None => None
      end
  | _, _, _ => None
  end.

Definition alice : nat * User.t := (1%nat, User.mk "alice" "" "" "").
Definition bob : nat * User.t := (2%nat, User.mk "bob" "" "" "").

Definition news : Category.t := Category.mk "News" "news" true.
Definition drafts : Category.t := Category.mk "Drafts" "drafts" false.

Definition post_public : Post.t :=
  Post.mk "public" "text" 10 1 None (Some 1%nat) None true.
Definition post_uncategorised : Post.t :=
  Post.mk "uncategorised" "text" 20 1 None None None true.
Definition post_in_drafts : Post.t :=
  Post.mk "in drafts" "text" 30 1 None (Some 2%nat) None true.
Definition post_unpublished : Post.t :=
  Post.mk "unpublished" "text" 40 1 None (Some 1%nat) None false.
Definition post_future : Post.t :=
  Post.mk "future" "text" 500 1 None (Some 1%nat) None true.

Definition comment_bob : Comment.t := Comment.mk "hello" 50 1%nat 2%nat.
Definition comment_alice : Comment.t := Comment.mk "thanks" 60 1%nat 1%nat.

Definition store : Store :=
  mkStore
    (<[1%nat := alice.2]> (<[2%nat := bob.2]> ∅))
    (<[1%nat := news]> (<[2%nat := drafts]> ∅))
    ∅
    (<[1%nat := post_public]> (<[2%nat := post_uncategorised]>
      (<[3%nat := post_in_drafts]> (<[4%nat := post_unpublished]>
        (<[5%nat := post_future]> ∅)))))
    (<[1%nat := comment_bob]> (<[2%nat := comment_alice]> ∅)).

Definition clock : Z := 100.

Definition request (method : string) (user : option (nat * User.t))
    (data : gmap string string) : Request :=
  mkRequest method "/" user ∅ data ∅.

(** A listing of [n] posts, and the number and length of a page. *)
Definition listing (n : nat) : list PostRow :=
  replicate n (mkRow 1 post_public 0).

Definition shape (pg : Exception + Page) : option (Z * nat) :=
  match pg with
  | inr pg => Some (number pg, length (object_list pg))
  | inl _ => None
  end.
End Example.

(** ** The views on users (views.py: [edit_profile], [registration])

    The row of a user holds the fields the views read and the forms write;
    the password, which no view reads, is not part of it. *)

Definition UserEditForm_fields : list string :=
  ["username"; "first_name"; "last_name"; "email"].

Definition UserRegistrationForm_fields : list string :=
  ["username"; "first_name"; "last_name"; "email"; "password1"; "password2"].

Definition set_users (st : Store) (m : gmap nat User.t) : Store :=
  mkStore m (categories st) (locations st) (posts st) (comments st).

(** What a view on users answers: the template rendered with its form, or
    a redirect. *)
Inductive UserResponse :=
| render_form (template : string) (form : Form (nat * User.t))
| redirect_to (to : Url)
| redirect_login.                     (* redirect('login') *)

Section UserViews.
(** Validation of the fields of a user, as the user model of the framework
    declares them: from the store, the instance of the form and the data
    the form reads, the cleaned row or [None]. *)
Variable UserEditForm_clean :
  Store → nat * User.t → gmap string string → option User.t.

Variable UserRegistrationForm_clean :
  Store → gmap string string → option User.t.

Definition edit_profile (st : Store) (request : Request)
  : Store * UserResponse :=
  match user request with                                (* @login_required *)
  | None => (st, redirect_to (url_login (get_full_path request)))
  | Some u =>
      if bool_decide (method request = "POST") then
        let form := mkForm (Some (POST request, ∅)) (Some u) in
        match UserEditForm_clean st u
                (bound_data UserEditForm_fields (POST request)) with
        | Some cleaned =>
            (* form.save() writes the cleaned fields to request.user, the
               instance of the form, and saves it under its key *)
            (set_users st (<[u.1 := cleaned]> (users st)),
             redirect_to (url_profile (User.username cleaned)))
        | None => (st, render_form "blog/user.html" form)
        end
      else
        let form := mkForm None (Some u) in
        (st, render_form "blog/user.html" form)
  end.

Definition registration (st : Store) (request : Request)
  : Store * UserResponse :=
  if bool_decide (method request = "POST") then
    let form := mkForm (Some (POST request, ∅)) None in
    match UserRegistrationForm_clean st
            (bound_data UserRegistrationForm_fields (POST request)) with
    | Some cleaned =>
        (set_users st (<[next_pk (users st) := cleaned]> (users st)),
         redirect_login)
    | None => (st, render_form "registration/registration_form.html" form)
    end
  else
    let form := mkForm None None in
    (st, render_form "registration/registration_form.html" form).
End UserViews.

(** ** Sequences of requests *)

(** The store after a sequence of requests to the views that write posts
    and comments, each with the clock at its time. *)
Definition run
    (PostForm_clean : Store → option (nat * Post.t) → gmap string string
                      → gmap string string → option PostData)
    (default_is_published : bool)
    (st : Store) (requests : list (Z * Request * Route)) : Store :=
  foldl (λ st r,
           (handle PostForm_clean default_is_published st r.1.1 r.1.2 r.2).1)
        st requests.

(** What one request of user [u] at time [now] can do to the store. *)
Inductive effect (u : nat * User.t) (now : Z) (st : Store) : Store → Prop :=
| effect_none : effect u now st st
| effect_post_created p :
    Post.author p = u.1 →
    effect u now st (set_posts st (<[next_pk (posts st) := p]> (posts st)))
| effect_post_saved id p p' :
    posts st !! id = Some p → Post.author p = u.1 →
    Post.author p' = u.1 → Post.is_published p' = Post.is_published p →
    effect u now st (set_posts st (<[id := p']> (posts st)))
| effect_post_deleted id p :
    posts st !! id = Some p → Post.author p = u.1 →
    effect u now st (delete_post st id)
| effect_comment_added post_id p text :
    posts st !! post_id = Some p → text ≠ EmptyString → strip text = text →
    effect u now st
      (set_comments st
         (<[next_pk (comments st) := Comment.mk text now post_id u.1]>
            (comments st)))
| effect_comment_saved k c text :
    comments st !! k = Some c → Comment.author c = u.1 →
    text ≠ EmptyString → strip text = text →
    effect u now st
      (set_comments st
         (<[k := Comment.mk text (Comment.created_at c) (Comment.post c)
                   (Comment.author c)]> (comments st)))
| effect_comment_deleted k c :
    comments st !! k = Some c → Comment.author c = u.1 →
    effect u now st (delete_comment_row st k).




(** The page number [get_page] settles on for the parameter of a request. *)
Definition resolved_page (int_of_str : string → option Z)
    (l : list PostRow) (request : Request) : Z :=
  match GET request !! "page" with
  | None => 1
  | Some s =>
      match int_of_str s with
      | None => 1
      | Some m =>
          if bool_decide (1 ≤ m ≤ num_pages (mkPaginator l 10)) then m
          else num_pages (mkPaginator l 10)
      end
  end.

(** The text neither starts nor ends with a whitespace character. *)
Definition stripped (s : string) : Prop :=
  starts_with isspace isspace2 isspace3 s = false
  ∧ starts_with isspace (λ b a, isspace2 a b) (λ c b a, isspace3 a b c)
      (String.rev s) = false.

(** A blog with a feed of two pages: twelve public posts of alice in the
    published category, post [n] dated [n]. *)
Module ExampleFeed.
Definition post (n : nat) : Post.t :=
  Post.mk "post" "text" (Z.of_nat n) 1 None (Some 1%nat) None true.

Definition store : Store :=
  mkStore (users Example.store) (categories Example.store) ∅
          (list_to_map ((λ n, (n, post n)) <$> seq 1 12))
          (comments Example.store).

(** An anonymous GET request for a page of a listing. *)
Definition request (page : string) : Request :=
  mkRequest "GET" ("/?page=" +:+ page) None {[ "page" := page ]} ∅ ∅.
End ExampleFeed.

(** Texts in UTF-8, for the examples. *)
Module ExampleText.
Definition of_bytes (l : list nat) : string :=
  foldr (λ n s, String (Strings.Ascii.ascii_of_nat n) s) EmptyString l.

(** U+00A0 alone *)
Definition no_break_space : string := of_bytes [194; 160]%nat.

(** "hi" after U+2003 and a tab, before a space and U+3000 *)
Definition padded : string :=
  of_bytes [226; 128; 131; 9; 104; 105; 32; 227; 128; 128]%nat.

(** "a", the null character, "b" *)
Definition with_null : string := of_bytes [97; 0; 98]%nat.
End ExampleText.

(** Stand-ins for the validation of users, for the examples: a username
    is required and must be free (or the instance's own). *)
Module ExampleUsers.
Definition taken (st : Store) (own : option nat) (name : string) : bool :=
  bool_decide (Exists (λ kv, User.username kv.2 = name ∧ Some kv.1 ≠ own)
                      (objects (users st))).

Definition row_of (data : gmap string string) (name : string) : User.t :=
  User.mk name (default EmptyString (data !! "first_name"))
          (default EmptyString (data !! "last_name"))
          (default EmptyString (data !! "email")).

Definition UserEditForm_clean (st : Store) (instance : nat * User.t)
    (data : gmap string string) : option User.t :=
  match data !! "username" with
  | Some name =>
      if bool_decide (name = EmptyString) || taken st (Some instance.1) name
      then None else Some (row_of data name)
  | None => None
  end.

Definition UserRegistrationForm_clean (st : Store)
    (data : gmap string string) : option User.t :=
  match data !! "username", data !! "password1", data !! "password2" with
  | Some name, Some p1, Some p2 =>
      if bool_decide (name = EmptyString) || taken st None name
         || negb (bool_decide (p1 = p2))
      then None else Some (row_of data name)
  | _, _, _ => None
  end.
End ExampleUsers.

(** ** Lookups *)

Section Lookup.
Context {A : Type}.
Implicit Types (m : gmap nat A) (l : list (nat * A)).

Lemma elem_of_objects m k r : (k, r) ∈ objects m ↔ m !! k = Some r.
Proof. apply elem_of_map_to_list. Qed.

Lemma NoDup_objects m : NoDup (objects m).
Proof. apply NoDup_map_to_list. Qed.

(** A filter that at most one element of a duplicate-free list passes
    keeps nothing or that element. *)
Lemma filter_at_most_one (P : nat * A → Prop) `{!∀ x, Decision (P x)} l :
  NoDup l →
  (∀ x y, x ∈ l → y ∈ l → P x → P y → x = y) →
  filter P l = [] ∨ ∃ x, filter P l = [x] ∧ x ∈ l ∧ P x.
Proof.
  intros Hnd Huniq.
  pose proof (NoDup_filter P l Hnd) as Hndf.
  destruct (filter P l) as [|x [|y rest]] eqn:Hf; [by left| |].
  - right. exists x. split; [done|].
    assert (x ∈ filter P l) as [??]%list_elem_of_filter
      by (rewrite Hf; set_solver).
    done.
  - exfalso.
    assert (x ∈ filter P l ∧ y ∈ filter P l) as [Hx Hy]
      by (rewrite Hf; set_solver).
    apply list_elem_of_filter in Hx as [HPx Hx].
    apply list_elem_of_filter in Hy as [HPy Hy].
    assert (x = y) as -> by eauto.
    inversion Hndf as [|?? Hnotin _]; subst. set_solver.
Qed.

Lemma get_none model (P : nat * A → Prop) `{!∀ x, Decision (P x)} l :
  (∀ x, x ∈ l → ¬ P x) →
  get_object_or_404 model (filter P l)
  = inl (Http404 ("No " +:+ model +:+ " matches the given query.")).
Proof.
  intros Hnone.
  destruct (filter P l) as [|x rest] eqn:Hf; [done|].
  assert (x ∈ filter P l) as [HPx Hx]%list_elem_of_filter
    by (rewrite Hf; set_solver).
  by destruct (Hnone x).
Qed.

Lemma get_the_one model (P : nat * A → Prop) `{!∀ x, Decision (P x)} l x :
  NoDup l →
  (∀ y z, y ∈ l → z ∈ l → P y → P z → y = z) →
  x ∈ l → P x →
  get_object_or_404 model (filter P l) = inr x.
Proof.
  intros Hnd Huniq Hx HPx.
  destruct (filter_at_most_one P l Hnd Huniq) as [Hf|(y & Hf & Hy & HPy)].
  - assert (x ∈ filter P l) as Hin by (apply list_elem_of_filter; done).
    rewrite Hf in Hin. set_solver.
  - rewrite Hf. simpl. f_equal. eauto.
Qed.

(** A lookup by primary key is the lookup in the table. *)
Lemma get_by_pk model m k :
  get_object_or_404 model (filter (λ x, x.1 = k) (objects m))
  = match m !! k with
    | Some r => inr (k, r)
    | None => inl (Http404 ("No " +:+ model +:+ " matches the given query."))
    end.
Proof.
  destruct (m !! k) as [r|] eqn:Hk.
  - apply get_the_one; [apply NoDup_objects| |by apply elem_of_objects|done].
    intros [k1 r1] [k2 r2] H1%elem_of_objects H2%elem_of_objects ??.
    simplify_eq/=. congruence.
  - apply get_none. intros [k' r'] Hin%elem_of_objects ?. simplify_eq/=.
Qed.
End Lookup.

(** ** Ordering *)

Global Instance newest_first_trans : Transitive newest_first.
Proof. intros a b c. unfold newest_first. lia. Qed.

Global Instance newest_first_total : Total newest_first.
Proof. intros a b. unfold newest_first. lia. Qed.

Global Instance oldest_first_trans : Transitive oldest_first.
Proof. intros a b c. unfold oldest_first. lia. Qed.

Global Instance oldest_first_total : Total oldest_first.
Proof. intros a b. unfold oldest_first. lia. Qed.

Lemma order_by_pub_date_desc_perm qs : order_by_pub_date_desc qs ≡ₚ qs.
Proof. apply merge_sort_Permutation. Qed.

Lemma order_by_pub_date_desc_sorted qs :
  StronglySorted newest_first (order_by_pub_date_desc qs).
Proof. apply StronglySorted_merge_sort; apply _. Qed.

Lemma elem_of_order_by_pub_date_desc r qs :
  r ∈ order_by_pub_date_desc qs ↔ r ∈ qs.
Proof. by rewrite order_by_pub_date_desc_perm. Qed.

Lemma order_by_created_at_perm qs : order_by_created_at qs ≡ₚ qs.
Proof. apply merge_sort_Permutation. Qed.

Lemma order_by_created_at_sorted qs :
  StronglySorted oldest_first (order_by_created_at qs).
Proof. apply StronglySorted_merge_sort; apply _. Qed.

Lemma elem_of_annotate st qs r :
  r ∈ annotate st qs
  ↔ (pk r, row r) ∈ qs ∧ comment_count r = count_comments st (pk r).
Proof.
  unfold annotate. rewrite list_elem_of_fmap. split.
  - intros ([k p] & -> & Hin). done.
  - intros [Hin Hc]. exists (pk r, row r). split; [|done].
    destruct r; simpl in *. by rewrite Hc.
Qed.

(** ** Pagination *)

Section Pagination.
Variable int_of_str : string → option Z.
Implicit Types (l : list PostRow) (n : Z).

Lemma num_pages_bounds l :
  let p := mkPaginator l 10 in
  1 ≤ num_pages p
  ∧ 10 * (num_pages p - 1) < Z.max 1 (count p) ≤ 10 * num_pages p.
Proof.
  unfold num_pages, count; simpl.
  generalize (Z.of_nat (length l)); intros c.
  Z.div_mod_to_equations. lia.
Qed.

Lemma slice_page l n :
  1 ≤ n →
  let p := mkPaginator l 10 in
  let bottom := (n - 1) * per_page p in
  let top := bottom + per_page p in
  slice l bottom (if bool_decide (top + 0 >= count p) then count p else top)
  = page_slice l n.
Proof.
  intros Hn. unfold slice, page_slice, count; simpl.
  replace (Z.to_nat ((n - 1) * 10)) with (Z.to_nat (10 * (n - 1))) by lia.
  case_bool_decide as Htop.
  - rewrite !take_ge; [done| |]; rewrite length_drop; lia.
  - f_equal. lia.
Qed.

Lemma page_valid l n :
  1 ≤ n ≤ num_pages (mkPaginator l 10) →
  page int_of_str (mkPaginator l 10) (arg_int n)
  = inr (mkPage (page_slice l n) n (mkPaginator l 10)).
Proof.
  intros [Hlo Hhi]. unfold page, validate_number, py_int.
  rewrite bool_decide_eq_false_2 by lia.
  rewrite bool_decide_eq_false_2 by lia.
  unfold bind_exc. by rewrite slice_page.
Qed.

(** [get_page] never fails: it answers with the page asked for, with the
    first page when the number is no integer, and with the last page when
    the number is out of range. *)
Lemma get_page_valid l (a : PageArg) :
  let p := mkPaginator l 10 in
  let n := match py_int int_of_str a with
           | None => 1
           | Some m => if bool_decide (1 ≤ m ≤ num_pages p) then m
                       else num_pages p
           end in
  1 ≤ n ≤ num_pages p
  ∧ get_page int_of_str p a = inr (mkPage (page_slice l n) n p).
Proof.
  intros p n. pose proof (num_pages_bounds l) as [Hnp _]. fold p in Hnp.
  subst n. unfold get_page, validate_number.
  pose proof (page_valid l) as Hpage. fold p in Hpage. clearbody p.
  destruct (py_int int_of_str a) as [m|].
  - case_bool_decide as Hm.
    + rewrite (bool_decide_eq_false_2 (m < 1)) by lia.
      rewrite (bool_decide_eq_false_2 (m > num_pages p)) by lia.
      split; [done|]. by apply Hpage.
    + split; [lia|].
      case_bool_decide; [by apply Hpage; lia|].
      rewrite (bool_decide_eq_true_2 (m > num_pages p)) by lia.
      apply Hpage; lia.
  - split; [lia|]. apply Hpage; lia.
Qed.

Lemma page_slice_length l n : (length (page_slice l n) ≤ 10)%nat.
Proof. unfold page_slice. rewrite length_take. lia. Qed.

Lemma page_slice_subseteq l n : page_slice l n ⊆ l.
Proof.
  unfold page_slice. intros r Hr.
  by apply subseteq_take, subseteq_drop in Hr.
Qed.

(** The pages cover the listing. *)
Lemma elem_of_some_page l r :
  r ∈ l ↔ ∃ n, 1 ≤ n ≤ num_pages (mkPaginator l 10) ∧ r ∈ page_slice l n.
Proof.
  split.
  - intros [i Hi]%list_elem_of_lookup.
    pose proof (lookup_lt_Some _ _ _ Hi) as Hlt.
    pose proof (num_pages_bounds l) as (_ & _ & Hup).
    unfold count in Hup; simpl in Hup.
    exists (Z.of_nat (i `div` 10) + 1). split.
    + pose proof (Nat.div_mod_eq i 10) as Hdm.
      pose proof (Nat.mod_upper_bound i 10). lia.
    + unfold page_slice.
      replace (Z.to_nat (10 * (Z.of_nat (i `div` 10) + 1 - 1)))
        with (10 * (i `div` 10))%nat by lia.
      apply list_elem_of_lookup. exists (i `mod` 10)%nat.
      rewrite lookup_take_lt by (apply Nat.mod_upper_bound; lia).
      rewrite lookup_drop. rewrite <- Hi. f_equal.
      pose proof (Nat.div_mod_eq i 10). lia.
  - intros (n & _ & Hin). by apply page_slice_subseteq in Hin.
Qed.
End Pagination.

Lemma on_a_page_iff post_list id p :
  on_a_page post_list id p ↔ ∃ r, r ∈ post_list ∧ pk r = id ∧ row r = p.
Proof.
  unfold on_a_page. split.
  - intros (n & r & Hn & Hr & <- & <-). exists r. split; [|done].
    by apply page_slice_subseteq in Hr.
  - intros (r & Hr & <- & <-).
    apply elem_of_some_page in Hr as (n & Hn & Hr). by exists n, r.
Qed.

Lemma paginate_is_page int_of_str request post_list :
  ∃ pg, paginate int_of_str request post_list = inr pg
        ∧ is_page_of post_list pg.
Proof.
  unfold paginate, is_page_of.
  destruct (get_page_valid int_of_str post_list
              (page_arg (GET request !! "page"))) as [Hn ->].
  eexists. split; [done|]. eexists. split; [exact Hn|done].
Qed.

Lemma page_slice_sorted l n :
  StronglySorted newest_first l → StronglySorted newest_first (page_slice l n).
Proof.
  intros Hl. unfold page_slice.
  rewrite <- (take_drop (Z.to_nat (10 * (n - 1))) l) in Hl.
  apply StronglySorted_app_1_r in Hl.
  rewrite <- (take_drop 10 (drop _ l)) in Hl.
  by apply StronglySorted_app_1_l in Hl.
Qed.

Lemma is_page_of_ten_newest_first l pg :
  StronglySorted newest_first l → is_page_of l pg → ten_newest_first pg.
Proof.
  intros Hl (n & [Hn _] & ->). unfold ten_newest_first; simpl.
  repeat split; try done.
  - by apply page_slice_sorted.
  - apply page_slice_length.
Qed.

(** A page of a listing the views sort newest first. *)
Ltac paginated :=
  eapply is_page_of_ten_newest_first;
  [apply order_by_pub_date_desc_sorted | eassumption].

(** ** The home feed *)

Lemma category__is_published_iff st p :
  category__is_published st p = true
  ↔ ∃ cid c, Post.category p = Some cid ∧ categories st !! cid = Some c
             ∧ Category.is_published c = true.
Proof.
  unfold category__is_published, related_category.
  destruct (Post.category p) as [cid|]; simpl.
  - destruct (categories st !! cid) as [c|] eqn:Hc; simpl.
    + split; [intros ?; by exists cid, c|].
      intros (? & ? & ? & ? & ?). by simplify_eq.
    + split; [done|]. intros (? & ? & ? & ? & ?). by simplify_eq.
  - split; [done|]. by intros (? & ? & ? & ?).
Qed.

Lemma elem_of_index_post_list st now r :
  r ∈ index_post_list st now
  ↔ posts st !! pk r = Some (row r)
    ∧ comment_count r = count_comments st (pk r)
    ∧ Post.is_published (row r) = true
    ∧ (∃ cid c, Post.category (row r) = Some cid
                ∧ categories st !! cid = Some c
                ∧ Category.is_published c = true)
    ∧ Post.pub_date (row r) ≤ now.
Proof.
  unfold index_post_list.
  rewrite elem_of_order_by_pub_date_desc, elem_of_annotate.
  rewrite !list_elem_of_filter, elem_of_objects. simpl.
  rewrite <- category__is_published_iff.
  rewrite !Is_true_true. split.
  - tauto.
  - intros (? & ? & ? & Hc & ?). repeat split; try done.
    apply category__is_published_iff in Hc as (cid & ? & -> & _). done.
Qed.

(** C1.  A post appears in the home feed, that is on one of the pages
    [index] serves, iff it is a stored post whose [is_published] is true,
    that has a category, whose category's [is_published] is true, and
    whose [pub_date] is at or before the clock of the request; and every
    request to [index] is answered with a page of that listing. *)
Theorem index_feed_iff int_of_str st now :
  (∀ id p,
     on_a_page (index_post_list st now) id p
     ↔ posts st !! id = Some p
       ∧ Post.is_published p = true
       ∧ (∃ cid c, Post.category p = Some cid
                   ∧ categories st !! cid = Some c
                   ∧ Category.is_published c = true)
       ∧ Post.pub_date p ≤ now)
  ∧ (∀ request, ∃ pg,
       index int_of_str st now request
       = inr (Render "blog/index.html" (ctx_index pg))
       ∧ is_page_of (index_post_list st now) pg).
Proof.
  split.
  - intros id p. rewrite on_a_page_iff. split.
    + intros (r & Hr%elem_of_index_post_list & <- & <-). tauto.
    + intros (Hp & Hpub & Hcat & Hdate).
      exists (mkRow id p (count_comments st id)). split; [|done].
      apply elem_of_index_post_list. done.
  - intros request. unfold index.
    destruct (paginate_is_page int_of_str request (index_post_list st now))
      as (pg & -> & Hpg).
    by exists pg.
Qed.

(** ** The single-post view *)

Lemma post_detail_missing st now request id :
  posts st !! id = None →
  post_detail st now request id
  = inl (Http404 "No Post matches the given query.").
Proof. intros Hid. unfold post_detail. by rewrite get_by_pk, Hid. Qed.

Lemma post_detail_found st now request id p :
  posts st !! id = Some p →
  post_detail st now request id
  = if negb (Post.is_published p
             && match related_category st p with
                | None => true
                | Some c => Category.is_published c
                end
             && bool_decide (Post.pub_date p ≤ now))
       && negb (is_authenticated request && user_eq request (Post.author p))
    then inl (Http404 "Post not found")
    else inr (Render "blog/detail.html"
                (ctx_detail (id, p) (post_comments st id)
                   (if is_authenticated request
                    then Some (mkForm None None) else None))).
Proof. intros Hid. unfold post_detail. by rewrite get_by_pk, Hid. Qed.

Lemma is_author_iff request pk :
  is_authenticated request && user_eq request pk = true
  ↔ ∃ u, user request = Some (pk, u).
Proof.
  unfold is_authenticated, user_eq.
  destruct (user request) as [[k u]|]; simpl.
  - rewrite bool_decide_eq_true. split; [intros ->; eauto|].
    by intros (? & [= -> _]).
  - split; [done|]. by intros (? & ?).
Qed.

Lemma is_public_iff st now p :
  Post.is_published p
  && match related_category st p with
     | None => true
     | Some c => Category.is_published c
     end
  && bool_decide (Post.pub_date p ≤ now) = true
  ↔ Post.is_published p = true
    ∧ (∀ c, related_category st p = Some c → Category.is_published c = true)
    ∧ Post.pub_date p ≤ now.
Proof.
  rewrite !andb_true_iff, bool_decide_eq_true.
  destruct (related_category st p) as [c|].
  - split; [intros [[? ?] ?]|intros (? & Hc & ?)]; repeat split; try done.
    + by intros ? [= <-].
    + by apply Hc.
  - split; [intros [[? ?] ?]|intros (? & _ & ?)]; done.
Qed.

(** C2, as the view has it.  The single-post view serves an existing post
    iff the requester is authenticated and is its author, or the post is
    public: its [is_published] is true, its category, if it has one, is
    published, and its [pub_date] is at or before the clock.  Otherwise
    the view raises [Http404] with the message "Post not found", answered
    with status 404; an id under which no post is stored gives the same
    exception and status with the message of the lookup, "No Post matches
    the given query.". *)
Theorem post_detail_served_iff st now request id p :
  posts st !! id = Some p →
  let is_author := ∃ u, user request = Some (Post.author p, u) in
  let is_public :=
    Post.is_published p = true
    ∧ (∀ c, related_category st p = Some c → Category.is_published c = true)
    ∧ Post.pub_date p ≤ now in
  ((∃ comments form,
      post_detail st now request id
      = inr (Render "blog/detail.html" (ctx_detail (id, p) comments form)))
   ↔ is_author ∨ is_public)
  ∧ (¬ (is_author ∨ is_public) →
     post_detail st now request id = inl (Http404 "Post not found")
     ∧ status_code (post_detail st now request id) = 404
     ∧ ∀ id', posts st !! id' = None →
         post_detail st now request id'
         = inl (Http404 "No Post matches the given query.")
         ∧ status_code (post_detail st now request id')
           = status_code (post_detail st now request id)).
Proof.
  intros Hid is_author is_public.
  rewrite (post_detail_found _ _ _ _ _ Hid).
  pose proof (is_author_iff request (Post.author p)) as Hauth.
  pose proof (is_public_iff st now p) as Hpub.
  fold is_author in Hauth. fold is_public in Hpub.
  destruct (is_authenticated request && user_eq request (Post.author p));
  destruct (Post.is_published p && _ && bool_decide _); simpl.
  - split; [split; [intros _; left; by apply Hauth|eauto]|].
    intros []. left. by apply Hauth.
  - split; [split; [intros _; left; by apply Hauth|eauto]|].
    intros []. left. by apply Hauth.
  - split; [split; [intros _; right; by apply Hpub|eauto]|].
    intros []. right. by apply Hpub.
  - split.
    + split; [by intros (? & ? & ?)|].
      intros [Ha|Hp]; [by apply Hauth in Ha|by apply Hpub in Hp].
    + intros _. split; [done|]. split; [done|].
      intros id' Hid'. by rewrite (post_detail_missing _ _ _ _ Hid').
Qed.

(** C2 as stated fails in its last part: to bob, who is not its author,
    the unpublished post 4 and the id 9, under which no post is stored,
    are both answered with [Http404], but not with the same one: the
    message of the first is the one the view raises, that of the second
    the one of the lookup, so the two outcomes can be told apart. *)
Lemma post_detail_hidden_not_as_missing :
  let request := Example.request "GET" (Some Example.bob) ∅ in
  posts Example.store !! 4%nat = Some Example.post_unpublished
  ∧ posts Example.store !! 9%nat = None
  ∧ post_detail Example.store Example.clock request 4
    = inl (Http404 "Post not found")
  ∧ post_detail Example.store Example.clock request 9
    = inl (Http404 "No Post matches the given query.")
  ∧ post_detail Example.store Example.clock request 4
    ≠ post_detail Example.store Example.clock request 9.
Proof.
  intros request.
  assert (post_detail Example.store Example.clock request 4
          = inl (Http404 "Post not found")) as -> by (by vm_compute).
  assert (post_detail Example.store Example.clock request 9
          = inl (Http404 "No Post matches the given query.")) as ->
    by (by vm_compute).
  split; [by vm_compute|]. split; [by vm_compute|]. done.
Qed.

(** C10.  A stored post without a category, whose [is_published] is true
    and whose [pub_date] is at or before the clock, is served by the
    single-post view to every requester, the anonymous one too, and is on
    no page of the home feed. *)
Theorem uncategorised_post_served_not_listed st now request id p :
  posts st !! id = Some p →
  Post.category p = None →
  Post.is_published p = true →
  Post.pub_date p ≤ now →
  (∃ comments form,
     post_detail st now request id
     = inr (Render "blog/detail.html" (ctx_detail (id, p) comments form)))
  ∧ ¬ on_a_page (index_post_list st now) id p
  ∧ ∀ r, r ∈ index_post_list st now → pk r ≠ id.
Proof.
  intros Hid Hcat Hpub Hdate.
  assert (∀ r, r ∈ index_post_list st now → pk r ≠ id) as Hnot.
  { intros r (Hr & _ & _ & (cid & c & Hc & _) & _)%elem_of_index_post_list Heq.
    rewrite Heq in Hr. congruence. }
  split; [|split; [|done]].
  - rewrite (post_detail_found _ _ _ _ _ Hid).
    assert (Post.is_published p
            && match related_category st p with
               | None => true
               | Some c => Category.is_published c
               end
            && bool_decide (Post.pub_date p ≤ now) = true) as ->.
    { apply is_public_iff. unfold related_category. rewrite Hcat. done. }
    simpl. eauto.
  - intros (r & Hr & Hpk & _)%on_a_page_iff. by apply (Hnot r).
Qed.

(** ** The category feed *)

Lemma elem_of_category_post_list st now k r :
  r ∈ category_post_list st now k
  ↔ posts st !! pk r = Some (row r)
    ∧ comment_count r = count_comments st (pk r)
    ∧ Post.category (row r) = Some k
    ∧ Post.is_published (row r) = true
    ∧ Post.pub_date (row r) ≤ now.
Proof.
  unfold category_post_list.
  rewrite elem_of_order_by_pub_date_desc, elem_of_annotate.
  rewrite list_elem_of_filter, elem_of_objects. simpl.
  rewrite Is_true_true. tauto.
Qed.

Lemma category_posts_none int_of_str st now request category_slug :
  (∀ k c, categories st !! k = Some c → Category.slug c = category_slug →
          Category.is_published c = false) →
  category_posts int_of_str st now request category_slug
  = inl (Http404 "No Category matches the given query.").
Proof.
  intros Hnone. unfold category_posts. rewrite get_none; [done|].
  intros [k c] Hin%elem_of_objects [Hslug Hpub%Is_true_true]; simpl in *.
  rewrite (Hnone k c Hin Hslug) in Hpub. done.
Qed.

Lemma category_posts_found int_of_str st now request k c :
  slug_unique st →
  categories st !! k = Some c → Category.is_published c = true →
  ∃ pg, category_posts int_of_str st now request (Category.slug c)
        = inr (Render "blog/category.html" (ctx_category (k, c) pg))
        ∧ is_page_of (category_post_list st now k) pg.
Proof.
  intros Huniq Hk Hpub. unfold category_posts.
  rewrite (get_the_one _ _ _ (k, c)).
  - simpl.
    destruct (paginate_is_page int_of_str request
                (category_post_list st now k)) as (pg & -> & Hpg).
    by exists pg.
  - apply NoDup_objects.
  - intros [k1 c1] [k2 c2] H1%elem_of_objects H2%elem_of_objects
      [Hs1 _] [Hs2 _]; simpl in *.
    assert (k1 = k2) as -> by (eapply Huniq; [done..|congruence]).
    congruence.
  - by apply elem_of_objects.
  - simpl. split; [done|]. by apply Is_true_true.
Qed.

(** C5.  A request for the category feed of a slug fails with not-found
    when no category has the slug or the category that has it is not
    published; otherwise, slugs identifying categories, it is answered with
    a page of the listing of that category, and a post is on a page of that
    listing iff it is a stored post of the category whose [is_published] is
    true and whose [pub_date] is at or before the clock. *)
Theorem category_posts_spec int_of_str st now request category_slug :
  ((∀ k c, categories st !! k = Some c → Category.slug c = category_slug →
           Category.is_published c = false) →
   (∃ msg, category_posts int_of_str st now request category_slug
           = inl (Http404 msg))
   ∧ status_code (category_posts int_of_str st now request category_slug)
     = 404)
  ∧ (slug_unique st →
     ∀ k c, categories st !! k = Some c → Category.slug c = category_slug →
            Category.is_published c = true →
     (∃ pg, category_posts int_of_str st now request category_slug
            = inr (Render "blog/category.html" (ctx_category (k, c) pg))
            ∧ is_page_of (category_post_list st now k) pg)
     ∧ ∀ id p,
         on_a_page (category_post_list st now k) id p
         ↔ posts st !! id = Some p
           ∧ Post.category p = Some k
           ∧ Post.is_published p = true
           ∧ Post.pub_date p ≤ now).
Proof.
  split.
  - intros Hnone. rewrite category_posts_none by done. eauto.
  - intros Huniq k c Hk <- Hpub. split.
    + by apply category_posts_found.
    + intros id p. rewrite on_a_page_iff. split.
      * intros (r & Hr%elem_of_category_post_list & <- & <-). tauto.
      * intros (Hp & Hcat & Hpubl & Hdate).
        exists (mkRow id p (count_comments st id)). split; [|done].
        apply elem_of_category_post_list. done.
Qed.

(** ** The profile feed *)

(** [comment_count] is the number of stored comments on the post. *)
Lemma count_comments_size st id :
  count_comments st id
  = size (filter (λ kv, Comment.post kv.2 = id) (comments st)).
Proof.
  unfold count_comments, objects.
  rewrite <- length_map_to_list. apply Permutation_length.
  apply NoDup_Permutation.
  - apply NoDup_filter, NoDup_map_to_list.
  - apply NoDup_map_to_list.
  - intros [k c]. rewrite list_elem_of_filter, !elem_of_map_to_list.
    rewrite map_lookup_filter_Some. tauto.
Qed.

Lemma elem_of_profile_post_list st k r :
  r ∈ profile_post_list st k
  ↔ posts st !! pk r = Some (row r)
    ∧ comment_count r = count_comments st (pk r)
    ∧ Post.author (row r) = k.
Proof.
  unfold profile_post_list.
  rewrite elem_of_order_by_pub_date_desc, elem_of_annotate.
  rewrite list_elem_of_filter, elem_of_objects. simpl. tauto.
Qed.

Lemma profile_none int_of_str st request username :
  (∀ k u, users st !! k = Some u → User.username u ≠ username) →
  profile int_of_str st request username
  = inl (Http404 "No User matches the given query.").
Proof.
  intros Hnone. unfold profile. rewrite get_none; [done|].
  intros [k u] Hin%elem_of_objects Hname; simpl in *.
  by apply (Hnone k u).
Qed.

Lemma profile_found int_of_str st request k u :
  username_unique st →
  users st !! k = Some u →
  ∃ pg, profile int_of_str st request (User.username u)
        = inr (Render "blog/profile.html" (ctx_profile (k, u) pg))
        ∧ is_page_of (profile_post_list st k) pg.
Proof.
  intros Huniq Hk. unfold profile.
  rewrite (get_the_one _ _ _ (k, u)).
  - simpl.
    destruct (paginate_is_page int_of_str request
                (profile_post_list st k)) as (pg & -> & Hpg).
    by exists pg.
  - apply NoDup_objects.
  - intros [k1 u1] [k2 u2] H1%elem_of_objects H2%elem_of_objects
      Hn1 Hn2; simpl in *.
    assert (k1 = k2) as -> by (eapply Huniq; [done..|congruence]).
    congruence.
  - by apply elem_of_objects.
  - done.
Qed.

Lemma on_a_page_profile st k id p :
  on_a_page (profile_post_list st k) id p
  ↔ posts st !! id = Some p ∧ Post.author p = k.
Proof.
  rewrite on_a_page_iff. split.
  - intros (r & Hr%elem_of_profile_post_list & <- & <-). tauto.
  - intros [Hp Ha]. exists (mkRow id p (count_comments st id)).
    split; [|done]. apply elem_of_profile_post_list. done.
Qed.

(** C6.  A request for the profile feed of a username under which no user
    is stored fails with not-found; otherwise, usernames being unique, it
    is answered with a page of the listing of that user, which holds every
    stored post the user authored, whatever its [is_published], category
    and [pub_date], each with the number of stored comments on it, ordered
    newest first and cut into pages of ten as the public feeds are. *)
Theorem profile_spec int_of_str st request username :
  ((∀ k u, users st !! k = Some u → User.username u ≠ username) →
   (∃ msg, profile int_of_str st request username = inl (Http404 msg))
   ∧ status_code (profile int_of_str st request username) = 404)
  ∧ (username_unique st →
     ∀ k u, users st !! k = Some u → User.username u = username →
     (∃ pg, profile int_of_str st request username
            = inr (Render "blog/profile.html" (ctx_profile (k, u) pg))
            ∧ is_page_of (profile_post_list st k) pg
            ∧ ten_newest_first pg)
     ∧ (∀ id p, on_a_page (profile_post_list st k) id p
                ↔ posts st !! id = Some p ∧ Post.author p = k)
     ∧ (∀ r, r ∈ profile_post_list st k →
             comment_count r
             = size (filter (λ kv, Comment.post kv.2 = pk r) (comments st)))
     ∧ StronglySorted newest_first (profile_post_list st k)).
Proof.
  split.
  - intros Hnone. rewrite profile_none by done. eauto.
  - intros Huniq k u Hk <-. split; [|split; [|split]].
    + destruct (profile_found int_of_str st request k u Huniq Hk)
        as (pg & Heq & Hpg).
      exists pg. split; [done|]. split; [done|]. by paginated.
    + apply on_a_page_profile.
    + intros r (_ & -> & _)%elem_of_profile_post_list.
      apply count_comments_size.
    + apply order_by_pub_date_desc_sorted.
Qed.

(** C9.  The profile feed does not depend on who asks: two requests for
    the same username and the same page, by any two requesters, the
    anonymous one included, get the same answer from the same store; and a
    stored post of the user, unpublished or dated in the future as it may
    be, is on a page of the listing every requester is served from. *)
Theorem profile_ignores_requester int_of_str st username :
  (∀ request1 request2,
     GET request1 !! "page" = GET request2 !! "page" →
     profile int_of_str st request1 username
     = profile int_of_str st request2 username)
  ∧ (∀ request k u id p,
       username_unique st →
       users st !! k = Some u → User.username u = username →
       posts st !! id = Some p → Post.author p = k →
       ∃ pg, profile int_of_str st request username
             = inr (Render "blog/profile.html" (ctx_profile (k, u) pg))
             ∧ is_page_of (profile_post_list st k) pg
             ∧ on_a_page (profile_post_list st k) id p).
Proof.
  split.
  - intros request1 request2 Hpage. unfold profile, paginate.
    by rewrite Hpage.
  - intros request k u id p Huniq Hk <- Hid Hauthor.
    destruct (profile_found int_of_str st request k u Huniq Hk)
      as (pg & Heq & Hpg).
    exists pg. split; [done|]. split; [done|].
    by apply on_a_page_profile.
Qed.

(** ** Order and page size of the listings *)

Lemma post_comments_spec st id :
  StronglySorted oldest_first (post_comments st id)
  ∧ NoDup (post_comments st id)
  ∧ ∀ c, c ∈ post_comments st id
         ↔ comments st !! c.1 = Some c.2 ∧ Comment.post c.2 = id.
Proof.
  unfold post_comments. split; [apply order_by_created_at_sorted|]. split.
  - rewrite order_by_created_at_perm. apply NoDup_filter, NoDup_objects.
  - intros [k c]. rewrite order_by_created_at_perm.
    rewrite list_elem_of_filter, elem_of_objects. simpl. tauto.
Qed.

Lemma paginate_serves int_of_str request l :
  ∃ pg, paginate int_of_str request l = inr pg
        ∧ is_page_of l pg
        ∧ number pg = resolved_page int_of_str l request.
Proof.
  unfold paginate, is_page_of, resolved_page.
  destruct (get_page_valid int_of_str l (page_arg (GET request !! "page")))
    as [Hn ->].
  eexists. split; [done|]. split; [eexists; split; [exact Hn|done]|].
  simpl. by destruct (GET request !! "page").
Qed.

(** C7.  The home, category and profile views answer with a page of their
    listing: the paginator of the page holds the listing of the view,
    ordered by [pub_date], newest first, with [per_page] ten, and the page
    holds the at most ten posts of it from position [10 * (number - 1)]
    on, the number being the one the request names.  The single-post
    view, when it serves the post, lists the stored comments of the post
    ordered by [created_at], oldest first, and offers a comment form iff
    the requester is authenticated. *)
Theorem listings_ordered_and_paginated int_of_str st now request :
  (∃ pg, index int_of_str st now request
         = inr (Render "blog/index.html" (ctx_index pg))
         ∧ is_page_of (index_post_list st now) pg
         ∧ number pg
           = resolved_page int_of_str (index_post_list st now) request
         ∧ ten_newest_first pg)
  ∧ (∀ category_slug resp,
       category_posts int_of_str st now request category_slug = inr resp →
       ∃ category pg,
         resp = Render "blog/category.html" (ctx_category category pg)
         ∧ is_page_of (category_post_list st now category.1) pg
         ∧ number pg
           = resolved_page int_of_str
               (category_post_list st now category.1) request
         ∧ ten_newest_first pg)
  ∧ (∀ username resp,
       profile int_of_str st request username = inr resp →
       ∃ author pg,
         resp = Render "blog/profile.html" (ctx_profile author pg)
         ∧ is_page_of (profile_post_list st author.1) pg
         ∧ number pg
           = resolved_page int_of_str (profile_post_list st author.1) request
         ∧ ten_newest_first pg)
  ∧ (∀ id resp,
       post_detail st now request id = inr resp →
       ∃ p cs form,
         posts st !! id = Some p
         ∧ resp = Render "blog/detail.html" (ctx_detail (id, p) cs form)
         ∧ StronglySorted oldest_first cs
         ∧ NoDup cs
         ∧ (∀ c, c ∈ cs
                 ↔ comments st !! c.1 = Some c.2 ∧ Comment.post c.2 = id)
         ∧ (is_Some form ↔ is_authenticated request = true)).
Proof.
  split; [|split; [|split]].
  - unfold index.
    destruct (paginate_serves int_of_str request (index_post_list st now))
      as (pg & -> & Hpg & Hnumber).
    exists pg. split; [done|]. split; [done|]. split; [done|]. by paginated.
  - intros category_slug resp. unfold category_posts.
    destruct (get_object_or_404 _ _) as [exc|category]; [done|]. simpl.
    destruct (paginate_serves int_of_str request
                (category_post_list st now category.1))
      as (pg & -> & Hpg & Hnumber).
    intros [= <-]. exists category, pg.
    split; [done|]. split; [done|]. split; [done|]. by paginated.
  - intros username resp. unfold profile.
    destruct (get_object_or_404 _ _) as [exc|author]; [done|]. simpl.
    destruct (paginate_serves int_of_str request
                (profile_post_list st author.1))
      as (pg & -> & Hpg & Hnumber).
    intros [= <-]. exists author, pg.
    split; [done|]. split; [done|]. split; [done|]. by paginated.
  - intros id resp.
    destruct (posts st !! id) as [p|] eqn:Hid.
    + rewrite (post_detail_found _ _ _ _ _ Hid).
      destruct (negb _ && negb _); [done|]. intros [= <-].
      eexists _, _, _. split; [done|]. split; [done|].
      destruct (post_comments_spec st id) as (Hs & Hnd & Hin).
      split; [done|]. split; [done|]. split; [done|].
      destruct (is_authenticated request); split; intros Hform;
        first [done | by eexists | by destruct Hform].
    + by rewrite (post_detail_missing _ _ _ _ Hid).
Qed.

(** ** The views that write *)

Lemma next_pk_fresh {A} (m : gmap nat A) : m !! next_pk m = None.
Proof.
  destruct (m !! next_pk m) as [r|] eqn:Hr; [|done].
  apply elem_of_objects in Hr.
  assert (next_pk m ∈ (objects m).*1) as Hin.
  { apply list_elem_of_fmap. by exists (next_pk m, r). }
  apply max_list_elem_of_le in Hin. unfold next_pk in Hin at 1. lia.
Qed.

Lemma bound_data_insert_other fields data k v :
  k ∉ fields → bound_data fields (<[k:=v]> data) = bound_data fields data.
Proof.
  intros Hk. unfold bound_data. apply map_eq. intros j.
  apply option_eq. intros x. rewrite !map_lookup_filter_Some. simpl.
  destruct (decide (k = j)) as [->|Hne].
  - split; intros [_ ?]; done.
  - by rewrite lookup_insert_ne.
Qed.

Lemma get_comment st post_id comment_id :
  get_object_or_404 "Comment"
    (filter (λ c, c.1 = comment_id ∧ Comment.post c.2 = post_id)
            (objects (comments st)))
  = match comments st !! comment_id with
    | Some c =>
        if bool_decide (Comment.post c = post_id) then inr (comment_id, c)
        else inl (Http404 "No Comment matches the given query.")
    | None => inl (Http404 "No Comment matches the given query.")
    end.
Proof.
  destruct (comments st !! comment_id) as [c|] eqn:Hc.
  - case_bool_decide as Hpost.
    + apply get_the_one; [apply NoDup_objects| |by apply elem_of_objects|done].
      intros [k1 c1] [k2 c2] H1%elem_of_objects H2%elem_of_objects [? _] [? _].
      simplify_eq/=. congruence.
    + apply get_none. intros [k' c'] Hin%elem_of_objects [? ?].
      simplify_eq/=.
  - apply get_none. intros [k' c'] Hin%elem_of_objects [? ?]. simplify_eq/=.
Qed.

(** What one request to a view that writes does to the table of posts: it
    leaves it, adds a post of the requester under a new key, saves a post
    of the requester with the requester as author, or deletes a post. *)
Lemma handle_posts PostForm_clean default_is_published st now request route :
  let st' := (handle PostForm_clean default_is_published st now request
                route).1 in
  posts st' = posts st
  ∨ (∃ u p', user request = Some u
             ∧ posts st' = <[next_pk (posts st) := p']> (posts st)
             ∧ Post.author p' = u.1)
  ∨ (∃ u id p p', user request = Some u
                  ∧ posts st !! id = Some p ∧ Post.author p = u.1
                  ∧ posts st' = <[id := p']> (posts st)
                  ∧ Post.author p' = u.1)
  ∨ (∃ id, posts st' = delete id (posts st)).
Proof.
  destruct route as [|post_id|post_id|post_id|post_id comment_id
                     |post_id comment_id]; simpl;
    unfold post_create, post_edit, post_delete, add_comment, edit_comment,
      delete_comment, login_required, require_http_methods;
    destruct (user request) as [u|] eqn:Hu; try (by left).
  - case_bool_decide; [|by left].
    destruct (PostForm_is_valid _ _ _) as [cd|]; [|by left].
    right; left. by eexists u, _.
  - rewrite get_by_pk. destruct (posts st !! post_id) as [p|] eqn:Hp;
      [|by left]. simpl.
    case_bool_decide as Hauthor; [by left|].
    case_bool_decide; [|by left].
    destruct (PostForm_is_valid _ _ _) as [cd|]; [|by left].
    right; right; left. eexists u, post_id, p, _. simpl.
    repeat split; try done.
  - case_bool_decide; [by left|].
    rewrite get_by_pk. destruct (posts st !! post_id) as [p|]; [|by left].
    case_bool_decide; [by left|].
    case_bool_decide; [|by left].
    right; right; right. by exists post_id.
  - rewrite get_by_pk. destruct (posts st !! post_id) as [p|]; [|by left].
    left. by destruct (CommentForm_clean _).
  - rewrite get_comment.
    destruct (comments st !! comment_id) as [c|]; [|by left].
    case_bool_decide; [|by left]. simpl.
    case_bool_decide; [by left|].
    case_bool_decide; [|by left].
    left. by destruct (CommentForm_clean _).
  - case_bool_decide; [by left|].
    rewrite get_comment.
    destruct (comments st !! comment_id) as [c|]; [|by left].
    case_bool_decide; [|by left]. simpl.
    case_bool_decide; [by left|].
    by case_bool_decide; left.
Qed.

(** C3.  For a requester [u]: a valid create stores a new post whose
    author is [u]; a valid edit of a post of [u] stores it with author [u],
    the author it had; an [author] value in the submitted data changes
    neither, the form not reading it; and whatever a request to a view
    that writes does, a post stored before and after it has the author it
    had, and a post it adds has the requester as author. *)
Theorem post_author_pinned PostForm_clean default_is_published st now
    request u :
  user request = Some u →
  (∀ cd,
     method request = "POST" →
     PostForm_is_valid PostForm_clean st
       (mkForm (Some (POST request, FILES request)) None) = Some cd →
     ∃ p', post_create PostForm_clean default_is_published st request
           = (set_posts st (<[next_pk (posts st) := p']> (posts st)),
              inr (Redirect (url_profile (User.username u.2))))
           ∧ posts st !! next_pk (posts st) = None
           ∧ Post.author p' = u.1)
  ∧ (∀ post_id p cd,
       posts st !! post_id = Some p → Post.author p = u.1 →
       method request = "POST" →
       PostForm_is_valid PostForm_clean st
         (mkForm (Some (POST request, FILES request)) (Some (post_id, p)))
       = Some cd →
       ∃ p', post_edit PostForm_clean st request post_id
             = (set_posts st (<[post_id := p']> (posts st)),
                inr (Redirect (url_post_detail post_id)))
             ∧ Post.author p' = u.1
             ∧ Post.author p' = Post.author p)
  ∧ (∀ v post_id,
       let tampered := with_POST request (<["author" := v]> (POST request)) in
       (post_create PostForm_clean default_is_published st tampered).1
       = (post_create PostForm_clean default_is_published st request).1
       ∧ (post_edit PostForm_clean st tampered post_id).1
         = (post_edit PostForm_clean st request post_id).1)
  ∧ (∀ route id p',
       posts (handle PostForm_clean default_is_published st now request
                route).1 !! id = Some p' →
       match posts st !! id with
       | Some p => Post.author p' = Post.author p
       | None => Post.author p' = u.1
       end).
Proof.
  intros Hu. split; [|split; [|split]].
  - intros cd Hmethod Hvalid.
    unfold post_create, login_required. rewrite Hu.
    rewrite bool_decide_eq_true_2 by done. rewrite Hvalid.
    eexists. split; [done|]. split; [apply next_pk_fresh|done].
  - intros post_id p cd Hp Hauthor Hmethod Hvalid.
    unfold post_edit, login_required. rewrite Hu, get_by_pk, Hp. simpl.
    rewrite bool_decide_eq_false_2 by (intros Hne; by apply Hne).
    rewrite bool_decide_eq_true_2 by done. rewrite Hvalid.
    eexists. split; [done|]. by rewrite Hauthor.
  - intros v post_id tampered.
    assert ("author" ∉ PostForm_fields) as Hnot.
    { unfold PostForm_fields. rewrite !not_elem_of_cons.
      repeat split; try done. apply not_elem_of_nil. }
    unfold post_create, post_edit, login_required, PostForm_is_valid.
    subst tampered; simpl. rewrite Hu.
    rewrite (bound_data_insert_other _ _ _ _ Hnot). split.
    + case_bool_decide; [|done].
      by destruct (PostForm_clean _ _ _ _).
    + destruct (get_object_or_404 _ _) as [exc|post]; [done|].
      case_bool_decide; [done|]. case_bool_decide; [|done].
      by destruct (PostForm_clean _ _ _ _).
  - intros route id p' Hp'.
    destruct (handle_posts PostForm_clean default_is_published st now
                request route)
      as [Heq|[(u' & q & Hu' & Heq & Hq)|[(u' & k & p & q & Hu' & Hk & Hpa
            & Heq & Hq)|(k & Heq)]]];
      rewrite Heq in Hp'.
    + by rewrite Hp'.
    + rewrite Hu in Hu'. injection Hu' as <-.
      destruct (decide (next_pk (posts st) = id)) as [<-|Hne].
      * rewrite next_pk_fresh. rewrite lookup_insert_eq in Hp'.
        by injection Hp' as <-.
      * rewrite lookup_insert_ne in Hp' by done. by rewrite Hp'.
    + rewrite Hu in Hu'. injection Hu' as <-.
      destruct (decide (k = id)) as [<-|Hne].
      * rewrite Hk. rewrite lookup_insert_eq in Hp'.
        injection Hp' as <-. by rewrite Hq, Hpa.
      * rewrite lookup_insert_ne in Hp' by done. by rewrite Hp'.
    + destruct (decide (k = id)) as [<-|Hne].
      * by rewrite lookup_delete_eq in Hp'.
      * rewrite lookup_delete_ne in Hp' by done. by rewrite Hp'.
Qed.

(** ** The ownership gate *)

Lemma post_edit_not_owner PostForm_clean st request u post_id p :
  user request = Some u →
  posts st !! post_id = Some p → Post.author p ≠ u.1 →
  post_edit PostForm_clean st request post_id
  = (st, inr (Redirect (url_post_detail post_id))).
Proof.
  intros Hu Hp Hne. unfold post_edit, login_required.
  rewrite Hu, get_by_pk, Hp. simpl. by rewrite bool_decide_eq_true_2.
Qed.

Lemma post_delete_not_owner st request u post_id p :
  user request = Some u →
  posts st !! post_id = Some p → Post.author p ≠ u.1 →
  post_delete st request post_id
  = if bool_decide (method request ∈ ["GET"; "POST"])
    then (st, inr (Redirect (url_post_detail post_id)))
    else (st, inr (NotAllowed ["GET"; "POST"])).
Proof.
  intros Hu Hp Hne. unfold post_delete, login_required, require_http_methods.
  rewrite Hu, get_by_pk, Hp. simpl.
  destruct (decide (method request ∈ ["GET"; "POST"])) as [Hm|Hm].
  - rewrite (bool_decide_eq_true_2 _ Hm).
    rewrite bool_decide_eq_false_2 by (intros Hn; by apply Hn).
    by rewrite bool_decide_eq_true_2.
  - rewrite (bool_decide_eq_false_2 _ Hm). by rewrite bool_decide_eq_true_2.
Qed.

Lemma edit_comment_not_owner st request u post_id comment_id c :
  user request = Some u →
  comments st !! comment_id = Some c → Comment.post c = post_id →
  Comment.author c ≠ u.1 →
  edit_comment st request post_id comment_id
  = (st, inr (Redirect (url_post_detail (Comment.post c)))).
Proof.
  intros Hu Hc Hpost Hne. unfold edit_comment, login_required.
  rewrite Hu, get_comment, Hc. rewrite bool_decide_eq_true_2 by done.
  simpl. rewrite bool_decide_eq_true_2 by done. by rewrite Hpost.
Qed.

Lemma delete_comment_not_owner st request u post_id comment_id c :
  user request = Some u →
  comments st !! comment_id = Some c → Comment.post c = post_id →
  Comment.author c ≠ u.1 →
  delete_comment st request post_id comment_id
  = if bool_decide (method request ∈ ["GET"; "POST"])
    then (st, inr (Redirect (url_post_detail (Comment.post c))))
    else (st, inr (NotAllowed ["GET"; "POST"])).
Proof.
  intros Hu Hc Hpost Hne.
  unfold delete_comment, login_required, require_http_methods.
  rewrite Hu, get_comment, Hc. rewrite (bool_decide_eq_true_2 _ Hpost).
  simpl. destruct (decide (method request ∈ ["GET"; "POST"])) as [Hm|Hm].
  - rewrite (bool_decide_eq_true_2 _ Hm).
    rewrite bool_decide_eq_false_2 by (intros Hn; by apply Hn).
    rewrite bool_decide_eq_true_2 by done. by rewrite Hpost.
  - rewrite (bool_decide_eq_false_2 _ Hm). by rewrite bool_decide_eq_true_2.
Qed.

(** C4, as the views have it.  An authenticated requester who is not the
    author of a stored post, or of a stored comment addressed under its
    post, is redirected to the post-detail view of that post, the store
    unchanged, by the edit views whatever the method and by the delete
    views when the method is GET or POST; the delete views answer a request
    of another method with 405, the store unchanged. *)
Theorem non_owner_redirected PostForm_clean st request u :
  user request = Some u →
  (∀ post_id p,
     posts st !! post_id = Some p → Post.author p ≠ u.1 →
     post_edit PostForm_clean st request post_id
     = (st, inr (Redirect (url_post_detail post_id)))
     ∧ (method request ∈ ["GET"; "POST"] →
        post_delete st request post_id
        = (st, inr (Redirect (url_post_detail post_id))))
     ∧ (method request ∉ ["GET"; "POST"] →
        post_delete st request post_id
        = (st, inr (NotAllowed ["GET"; "POST"]))))
  ∧ (∀ post_id comment_id c,
       comments st !! comment_id = Some c → Comment.post c = post_id →
       Comment.author c ≠ u.1 →
       edit_comment st request post_id comment_id
       = (st, inr (Redirect (url_post_detail (Comment.post c))))
       ∧ (method request ∈ ["GET"; "POST"] →
          delete_comment st request post_id comment_id
          = (st, inr (Redirect (url_post_detail (Comment.post c)))))
       ∧ (method request ∉ ["GET"; "POST"] →
          delete_comment st request post_id comment_id
          = (st, inr (NotAllowed ["GET"; "POST"])))).
Proof.
  intros Hu. split.
  - intros post_id p Hp Hne. split; [by eapply post_edit_not_owner|].
    rewrite (post_delete_not_owner st request u post_id p) by done.
    split; intros Hm.
    + by rewrite bool_decide_eq_true_2.
    + by rewrite bool_decide_eq_false_2.
  - intros post_id comment_id c Hc Hpost Hne.
    split; [by eapply edit_comment_not_owner|].
    rewrite (delete_comment_not_owner st request u post_id comment_id c)
      by done.
    split; intros Hm.
    + by rewrite bool_decide_eq_true_2.
    + by rewrite bool_decide_eq_false_2.
Qed.

(** C4 as stated fails for the delete views: bob, who is not the author of
    post 1, asks with method HEAD for its deletion and gets 405, no
    redirect to the post. *)
Lemma post_delete_head_not_redirected :
  let request := Example.request "HEAD" (Some Example.bob) ∅ in
  is_authenticated request = true
  ∧ posts Example.store !! 1%nat = Some Example.post_public
  ∧ Post.author Example.post_public ≠ Example.bob.1
  ∧ post_delete Example.store request 1
    = (Example.store, inr (NotAllowed ["GET"; "POST"]))
  ∧ post_delete Example.store request 1
    ≠ (Example.store, inr (Redirect (url_post_detail 1))).
Proof.
  simpl. split; [done|]. split; [by vm_compute|]. split; [by vm_compute|].
  assert (post_delete Example.store
            (Example.request "HEAD" (Some Example.bob) ∅) 1
          = (Example.store, inr (NotAllowed ["GET"; "POST"]))) as ->
    by (by vm_compute).
  split; [done|]. intros [= ?].
Qed.

(** ** Comments *)

Lemma CommentForm_clean_empty data :
  default EmptyString (data !! "text") = EmptyString →
  CommentForm_clean data = None.
Proof.
  intros Hempty. unfold CommentForm_clean, bound_data.
  destruct (filter _ data !! "text") as [value|] eqn:Hv; [|done].
  apply map_lookup_filter_Some in Hv as [Hv _].
  rewrite Hv in Hempty. simpl in Hempty. by subst value.
Qed.

(** C8, as the view has it.  An authenticated POST of a comment whose text
    is empty or absent, to a stored post, fails validation, leaves the
    store as it is, no comment added, and is answered with a redirect to
    the post-detail view of the post. *)
Theorem add_comment_empty_text st now request u post_id p :
  user request = Some u →
  method request = "POST" →
  posts st !! post_id = Some p →
  default EmptyString (POST request !! "text") = EmptyString →
  CommentForm_clean (POST request) = None
  ∧ add_comment st now request post_id
    = (st, inr (Redirect (url_post_detail post_id))).
Proof.
  intros Hu _ Hp Hempty.
  pose proof (CommentForm_clean_empty _ Hempty) as Hclean.
  split; [done|]. unfold add_comment, login_required.
  by rewrite Hu, get_by_pk, Hp, Hclean.
Qed.

(** C8 as stated fails: bob posts an empty comment to post 4, which is
    stored but unpublished and alice's.  The view renders nothing, it
    redirects; and the post-detail view bob is sent to answers not-found,
    so the post view is not rendered after the redirect either. *)
Lemma add_comment_empty_not_rendered :
  let request :=
    Example.request "POST" (Some Example.bob) {[ "text" := EmptyString ]} in
  let answer := add_comment Example.store Example.clock request 4 in
  is_authenticated request = true
  ∧ posts Example.store !! 4%nat = Some Example.post_unpublished
  ∧ CommentForm_clean (POST request) = None
  ∧ answer.1 = Example.store
  ∧ answer.2 = inr (Redirect (url_post_detail 4))
  ∧ (∀ template context, answer.2 ≠ inr (Render template context))
  ∧ post_detail Example.store Example.clock
      (Example.request "GET" (Some Example.bob) ∅) 4
    = inl (Http404 "Post not found").
Proof.
  intros request answer.
  assert (answer = (Example.store, inr (Redirect (url_post_detail 4))))
    as -> by (by vm_compute).
  split; [done|]. split; [by vm_compute|]. split; [by vm_compute|].
  split; [done|]. split; [done|]. split; [by intros ?? [= ?]|].
  by vm_compute.
Qed.

(** ** The theorems on the example blog *)

Lemma NoDup_fmap_eq {A B} (f : A → B) (l : list A) x y :
  NoDup (f <$> l) → x ∈ l → y ∈ l → f x = f y → x = y.
Proof.
  induction l as [|a l IH]; simpl; [by intros _ ?%elem_of_nil|].
  intros [Ha Hnd]%NoDup_cons [->|Hx]%elem_of_cons [->|Hy]%elem_of_cons Hf.
  - done.
  - destruct Ha. rewrite Hf. by apply list_elem_of_fmap_2.
  - destruct Ha. rewrite <- Hf. by apply list_elem_of_fmap_2.
  - by apply IH.
Qed.

Lemma NoDup_slug_unique st :
  NoDup ((λ c, Category.slug c.2) <$> objects (categories st)) →
  slug_unique st.
Proof.
  intros Hnd k1 k2 c1 c2 H1%elem_of_objects H2%elem_of_objects Hslug.
  by pose proof (NoDup_fmap_eq _ _ (k1, c1) (k2, c2) Hnd H1 H2 Hslug)
    as [= -> _].
Qed.

Lemma NoDup_username_unique st :
  NoDup ((λ u, User.username u.2) <$> objects (users st)) →
  username_unique st.
Proof.
  intros Hnd k1 k2 u1 u2 H1%elem_of_objects H2%elem_of_objects Hname.
  by pose proof (NoDup_fmap_eq _ _ (k1, u1) (k2, u2) Hnd H1 H2 Hname)
    as [= -> _].
Qed.

Lemma example_slug_unique : slug_unique Example.store.
Proof. apply NoDup_slug_unique. apply (bool_decide_unpack _). by vm_compute. Qed.

Lemma example_username_unique : username_unique Example.store.
Proof.
  apply NoDup_username_unique. apply (bool_decide_unpack _). by vm_compute.
Qed.

Example strip_spaces : strip "  hello world 	 " = "hello world".
Proof. reflexivity. Qed.

Example num_pages_of_25 : num_pages (mkPaginator (Example.listing 25) 10) = 3.
Proof. reflexivity. Qed.

Example num_pages_of_none : num_pages (mkPaginator [] 10) = 1.
Proof. reflexivity. Qed.

Example page_2_of_25 :
  Example.shape (get_page Example.int_of_str
                   (mkPaginator (Example.listing 25) 10) (arg_str "2"))
  = Some (2, 10%nat).
Proof. by vm_compute. Qed.

Example page_out_of_range_is_last :
  Example.shape (get_page Example.int_of_str
                   (mkPaginator (Example.listing 25) 10) (arg_str "99"))
  = Some (3, 5%nat).
Proof. by vm_compute. Qed.

Example page_not_a_number_is_first :
  Example.shape (get_page Example.int_of_str
                   (mkPaginator (Example.listing 25) 10) (arg_str "x"))
  = Some (1, 10%nat).
Proof. by vm_compute. Qed.

Example home_feed_of_example :
  pk <$> index_post_list Example.store Example.clock = [1%nat].
Proof. by vm_compute. Qed.

Example profile_feed_of_alice :
  (λ r, (pk r, comment_count r)) <$> profile_post_list Example.store 1
  = [(5, 0); (4, 0); (3, 0); (2, 0); (1, 2)]%nat.
Proof. by vm_compute. Qed.

Example comment_is_stripped_and_stored :
  comments (add_comment Example.store Example.clock
              (Example.request "POST" (Some Example.bob)
                 {[ "text" := " hi " ]}) 1).1 !! 3%nat
  = Some (Comment.mk "hi" Example.clock 1 2).
Proof. by vm_compute. Qed.

Lemma index_feed_iff_witness :
  on_a_page (index_post_list Example.store Example.clock)
    1 Example.post_public
  ∧ ¬ on_a_page (index_post_list Example.store Example.clock)
        5 Example.post_future.
Proof.
  destruct (index_feed_iff Example.int_of_str Example.store Example.clock)
    as [Hfeed _].
  split.
  - apply Hfeed. split; [by vm_compute|]. split; [done|].
    split; [by exists 1%nat, Example.news|]. by vm_compute.
  - intros (_ & _ & _ & Hdate)%Hfeed. by vm_compute in Hdate.
Defined.

Lemma post_detail_served_iff_witness :
  posts Example.store !! 4%nat = Some Example.post_unpublished
  ∧ (∃ cs form,
       post_detail Example.store Example.clock
         (Example.request "GET" (Some Example.alice) ∅) 4
       = inr (Render "blog/detail.html"
                (ctx_detail (4%nat, Example.post_unpublished) cs form)))
  ∧ status_code (post_detail Example.store Example.clock
                   (Example.request "GET" (Some Example.bob) ∅) 4) = 404.
Proof.
  assert (posts Example.store !! 4%nat = Some Example.post_unpublished)
    as Hid by (by vm_compute).
  split; [done|]. split.
  - destruct (post_detail_served_iff Example.store Example.clock
                (Example.request "GET" (Some Example.alice) ∅) 4
                Example.post_unpublished Hid) as [Hserved _].
    apply Hserved. left. by exists Example.alice.2.
  - destruct (post_detail_served_iff Example.store Example.clock
                (Example.request "GET" (Some Example.bob) ∅) 4
                Example.post_unpublished Hid) as [_ Hhidden].
    destruct Hhidden as (_ & Hstatus & _); [|exact Hstatus].
    intros [[u Hu]|[Hpub _]]; [by vm_compute in Hu|done].
Defined.

Lemma post_author_pinned_witness :
  let request :=
    Example.request "POST" (Some Example.bob)
      (<["title" := "t"]> (<["text" := "x"]> (<["pub_date" := "7"]>
        (<["author" := "1"]> ∅)))) in
  user request = Some Example.bob
  ∧ ∃ p', post_create Example.PostForm_clean true Example.store request
          = (set_posts Example.store
               (<[next_pk (posts Example.store) := p']>
                  (posts Example.store)),
             inr (Redirect (url_profile "bob")))
          ∧ posts Example.store !! next_pk (posts Example.store) = None
          ∧ Post.author p' = 2%nat.
Proof.
  intros request. split; [done|].
  destruct (post_author_pinned Example.PostForm_clean true Example.store
              Example.clock request Example.bob eq_refl) as [Hcreate _].
  apply (Hcreate (mkPostData "t" "x" 7 None None None)); by vm_compute.
Defined.

Lemma non_owner_redirected_witness :
  let request := Example.request "POST" (Some Example.bob) ∅ in
  user request = Some Example.bob
  ∧ post_edit Example.PostForm_clean Example.store request 1
    = (Example.store, inr (Redirect (url_post_detail 1)))
  ∧ post_delete Example.store request 1
    = (Example.store, inr (Redirect (url_post_detail 1)))
  ∧ delete_comment Example.store request 1 2
    = (Example.store, inr (Redirect (url_post_detail 1))).
Proof.
  intros request. split; [done|].
  destruct (non_owner_redirected Example.PostForm_clean Example.store
              request Example.bob eq_refl) as [Hpost Hcomment].
  destruct (Hpost 1%nat Example.post_public) as (Hedit & Hdelete & _);
    [by vm_compute..|].
  destruct (Hcomment 1%nat 2%nat Example.comment_alice) as (_ & Hdel & _);
    [by vm_compute..|].
  split; [done|]. split; [apply Hdelete|apply Hdel];
    apply (bool_decide_unpack _); by vm_compute.
Defined.

Lemma category_posts_spec_witness :
  slug_unique Example.store
  ∧ status_code (category_posts Example.int_of_str Example.store
                   Example.clock (Example.request "GET" None ∅) "drafts")
    = 404
  ∧ ∃ pg, category_posts Example.int_of_str Example.store Example.clock
            (Example.request "GET" None ∅) "news"
          = inr (Render "blog/category.html"
                   (ctx_category (1%nat, Example.news) pg)).
Proof.
  split; [apply example_slug_unique|].
  destruct (category_posts_spec Example.int_of_str Example.store
              Example.clock (Example.request "GET" None ∅) "drafts")
    as [Hnone _].
  destruct (category_posts_spec Example.int_of_str Example.store
              Example.clock (Example.request "GET" None ∅) "news")
    as [_ Hsome].
  specialize (Hsome example_slug_unique).
  split.
  - apply Hnone. intros k c Hk Hslug.
    assert ((k, c) ∈ objects (categories Example.store)) as Hin
      by (by apply elem_of_objects).
    vm_compute in Hin.
    apply elem_of_cons in Hin as [[= -> ->]|Hin]; [done|].
    apply elem_of_cons in Hin as [[= -> ->]|Hin]; [done|].
    by apply elem_of_nil in Hin.
  - destruct (Hsome 1%nat Example.news) as [(pg & Hpg & _) _];
      [by vm_compute..|].
    by exists pg.
Defined.

Lemma profile_spec_witness :
  username_unique Example.store
  ∧ status_code (profile Example.int_of_str Example.store
                   (Example.request "GET" None ∅) "carol") = 404
  ∧ on_a_page (profile_post_list Example.store 1) 4 Example.post_unpublished
  ∧ ∃ pg, profile Example.int_of_str Example.store
            (Example.request "GET" None ∅) "alice"
          = inr (Render "blog/profile.html" (ctx_profile Example.alice pg)).
Proof.
  split; [apply example_username_unique|].
  destruct (profile_spec Example.int_of_str Example.store
              (Example.request "GET" None ∅) "carol") as [Hnone _].
  destruct (profile_spec Example.int_of_str Example.store
              (Example.request "GET" None ∅) "alice") as [_ Hsome].
  specialize (Hsome example_username_unique).
  split; [|split].
  - apply Hnone. intros k u Hk Hname.
    assert ((k, u) ∈ objects (users Example.store)) as Hin
      by (by apply elem_of_objects).
    vm_compute in Hin.
    apply elem_of_cons in Hin as [[= -> ->]|Hin]; [done|].
    apply elem_of_cons in Hin as [[= -> ->]|Hin]; [done|].
    by apply elem_of_nil in Hin.
  - destruct (Hsome 1%nat Example.alice.2) as (_ & Hlisted & _);
      [by vm_compute..|].
    apply Hlisted. by vm_compute.
  - destruct (Hsome 1%nat Example.alice.2) as ((pg & Hpg & _) & _);
      [by vm_compute..|].
    by exists pg.
Defined.

Example feed_of_twelve :
  pk <$> index_post_list ExampleFeed.store Example.clock
  = [12; 11; 10; 9; 8; 7; 6; 5; 4; 3; 2; 1]%nat.
Proof. by vm_compute. Qed.

Lemma listings_ordered_and_paginated_witness :
  ∃ pg, index Example.int_of_str ExampleFeed.store Example.clock
          (ExampleFeed.request "2")
        = inr (Render "blog/index.html" (ctx_index pg))
        ∧ is_page_of (index_post_list ExampleFeed.store Example.clock) pg
        ∧ number pg = 2
        ∧ ten_newest_first pg
        ∧ pk <$> object_list pg = [2; 1]%nat.
Proof.
  destruct (listings_ordered_and_paginated Example.int_of_str
              ExampleFeed.store Example.clock (ExampleFeed.request "2"))
    as [(pg & Hindex & Hpage & Hnumber & Hten) _].
  assert (number pg = 2) as Htwo by (rewrite Hnumber; by vm_compute).
  exists pg. split; [done|]. split; [done|]. split; [done|].
  split; [done|].
  destruct Hpage as (n & _ & ->). simpl in Htwo. subst n. by vm_compute.
Defined.

Lemma add_comment_empty_text_witness :
  let request :=
    Example.request "POST" (Some Example.bob) {[ "text" := EmptyString ]} in
  user request = Some Example.bob
  ∧ method request = "POST"
  ∧ posts Example.store !! 1%nat = Some Example.post_public
  ∧ add_comment Example.store Example.clock request 1
    = (Example.store, inr (Redirect (url_post_detail 1))).
Proof.
  intros request. split; [done|]. split; [done|]. split; [by vm_compute|].
  apply (add_comment_empty_text Example.store Example.clock request
           Example.bob 1 Example.post_public); by vm_compute.
Defined.

Lemma profile_ignores_requester_witness :
  profile Example.int_of_str Example.store
    (Example.request "GET" None ∅) "alice"
  = profile Example.int_of_str Example.store
      (Example.request "GET" (Some Example.alice) ∅) "alice"
  ∧ on_a_page (profile_post_list Example.store 1) 5 Example.post_future.
Proof.
  destruct (profile_ignores_requester Example.int_of_str Example.store
              "alice") as [Hsame Hlisted].
  split.
  - by apply Hsame.
  - destruct (Hlisted (Example.request "GET" None ∅) 1%nat Example.alice.2
                5%nat Example.post_future) as (pg & _ & _ & Hpage);
      [apply example_username_unique|by vm_compute..|done].
Defined.

Lemma uncategorised_post_served_not_listed_witness :
  posts Example.store !! 2%nat = Some Example.post_uncategorised
  ∧ (∃ cs form,
       post_detail Example.store Example.clock
         (Example.request "GET" None ∅) 2
       = inr (Render "blog/detail.html"
                (ctx_detail (2%nat, Example.post_uncategorised) cs form)))
  ∧ ¬ on_a_page (index_post_list Example.store Example.clock)
        2 Example.post_uncategorised.
Proof.
  split; [by vm_compute|].
  destruct (uncategorised_post_served_not_listed Example.store Example.clock
              (Example.request "GET" None ∅) 2 Example.post_uncategorised)
    as (Hserved & Hnot & _); [by vm_compute..|].
  done.
Defined.

(** * Further properties of the views *)

(** ** Who may write, and how *)

Ltac unfold_views :=
  unfold post_create, post_edit, post_delete, add_comment, edit_comment,
    delete_comment, edit_profile, registration, login_required,
    require_http_methods.

(** X1.  No view that writes posts, comments or the profile runs for the
    anonymous user: the request is redirected to the login page, with the
    full path of the request, its query string included, as the way back,
    and the store is left as it is. *)
Theorem anonymous_sent_to_login PostForm_clean default_is_published
    UserEditForm_clean st now request route :
  user request = None →
  handle PostForm_clean default_is_published st now request route
  = (st, inr (Redirect (url_login (get_full_path request))))
  ∧ edit_profile UserEditForm_clean st request
    = (st, redirect_to (url_login (get_full_path request))).
Proof.
  intros Hanon. split.
  - destruct route; simpl; unfold_views; by rewrite Hanon.
  - unfold_views. by rewrite Hanon.
Qed.

(** X2.  The delete views check the method before they look the target up:
    an authenticated request of a method other than GET and POST is
    answered 405 whatever the ids, also for ids under which nothing is
    stored and for the author of the target; the store is left as it is. *)
Theorem delete_views_method_guard st request u post_id comment_id :
  user request = Some u →
  method request ∉ ["GET"; "POST"] →
  post_delete st request post_id = (st, inr (NotAllowed ["GET"; "POST"]))
  ∧ delete_comment st request post_id comment_id
    = (st, inr (NotAllowed ["GET"; "POST"])).
Proof.
  intros Hu Hm. unfold_views. rewrite Hu.
  by rewrite !(bool_decide_eq_true_2 _ Hm).
Qed.

(** X3.  A request of an authenticated user to edit, delete or comment a
    post under whose id none is stored, or to edit or delete a comment
    that is not stored or is stored under another post than the one
    named, raises [Http404] and leaves the store as it is (for the delete
    views: when the method is GET or POST). *)
Theorem missing_target_not_found PostForm_clean st now request u :
  user request = Some u →
  (∀ post_id,
     posts st !! post_id = None →
     post_edit PostForm_clean st request post_id
     = (st, inl (Http404 "No Post matches the given query."))
     ∧ add_comment st now request post_id
       = (st, inl (Http404 "No Post matches the given query."))
     ∧ (method request ∈ ["GET"; "POST"] →
        post_delete st request post_id
        = (st, inl (Http404 "No Post matches the given query."))))
  ∧ (∀ post_id comment_id,
       (∀ c, comments st !! comment_id = Some c → Comment.post c ≠ post_id) →
       edit_comment st request post_id comment_id
       = (st, inl (Http404 "No Comment matches the given query."))
       ∧ (method request ∈ ["GET"; "POST"] →
          delete_comment st request post_id comment_id
          = (st, inl (Http404 "No Comment matches the given query.")))).
Proof.
  intros Hu. split.
  - intros post_id Hnone. unfold_views. rewrite Hu, !get_by_pk, Hnone.
    split; [done|]. split; [done|]. intros Hm.
    by rewrite bool_decide_eq_false_2 by (intros Hn; by apply Hn).
  - intros post_id comment_id Hnone.
    assert (get_object_or_404 "Comment"
              (filter (λ c, c.1 = comment_id ∧ Comment.post c.2 = post_id)
                      (objects (comments st)))
            = inl (Http404 "No Comment matches the given query.")) as Hget.
    { rewrite get_comment. destruct (comments st !! comment_id) as [c|];
        [|done].
      rewrite bool_decide_eq_false_2; [done|]. by apply Hnone. }
    unfold_views. rewrite Hu, Hget. split; [done|]. intros Hm.
    by rewrite bool_decide_eq_false_2 by (intros Hn; by apply Hn).
Qed.

Lemma CommentForm_clean_no_data : CommentForm_clean ∅ = None.
Proof. by apply CommentForm_clean_empty. Qed.

(** X4.  Only POST requests write: a request of another method, which
    carries no submitted data, leaves the store as it is in every view,
    the views on users included. *)
Theorem only_post_writes PostForm_clean default_is_published
    UserEditForm_clean UserRegistrationForm_clean st now request route :
  method request ≠ "POST" →
  POST request = ∅ →
  (handle PostForm_clean default_is_published st now request route).1 = st
  ∧ (edit_profile UserEditForm_clean st request).1 = st
  ∧ (registration UserRegistrationForm_clean st request).1 = st.
Proof.
  intros Hm Hdata. split; [|split].
  - destruct route; simpl; unfold_views;
      destruct (user request) as [u|]; try done;
      rewrite ?get_by_pk, ?get_comment;
      repeat (case_bool_decide || case_match); try done.
    all: rewrite Hdata, CommentForm_clean_no_data in *; done.
  - unfold_views. destruct (user request); [|done].
    by rewrite bool_decide_eq_false_2.
  - unfold_views. by rewrite bool_decide_eq_false_2.
Qed.

(** ** The text of a comment *)

Lemma append_cons a s1 s2 : String a s1 +:+ s2 = String a (s1 +:+ s2).
Proof. reflexivity. Qed.

Lemma rev_app_rev_app s1 s2 s3 :
  String.rev_app (String.rev_app s1 s2) s3 = String.rev_app s2 (s1 +:+ s3).
Proof.
  revert s2 s3. induction s1 as [|a s1 IH]; intros s2 s3; simpl; [done|].
  by rewrite IH, append_cons.
Qed.

Lemma append_empty_r s : s +:+ EmptyString = s.
Proof.
  induction s as [|a s IH]; [done|]. by rewrite append_cons, IH.
Qed.

Lemma append_assoc s1 s2 s3 : (s1 +:+ s2) +:+ s3 = s1 +:+ (s2 +:+ s3).
Proof.
  induction s1 as [|a s1 IH]; [done|]. by rewrite !append_cons, IH.
Qed.

Lemma rev_involutive s : String.rev (String.rev s) = s.
Proof.
  unfold String.rev. rewrite rev_app_rev_app. simpl. apply append_empty_r.
Qed.

Lemma rev_app_append s1 s2 acc :
  String.rev_app (s1 +:+ s2) acc = String.rev_app s2 (String.rev_app s1 acc).
Proof.
  revert acc. induction s1 as [|a s1 IH]; intros acc; [done|].
  rewrite append_cons. simpl. by rewrite IH.
Qed.

Lemma rev_app_to_append s acc :
  String.rev_app s acc = String.rev s +:+ acc.
Proof.
  unfold String.rev. revert acc.
  induction s as [|a s IH]; intros acc; simpl; [done|].
  rewrite IH, (IH (String a EmptyString)).
  by rewrite append_assoc, append_cons.
Qed.

Lemma rev_append s1 s2 :
  String.rev (s1 +:+ s2) = String.rev s2 +:+ String.rev s1.
Proof.
  unfold String.rev at 1. rewrite rev_app_append.
  by rewrite rev_app_to_append.
Qed.

Section StripHeadFacts.
Variable w1 : Strings.Ascii.ascii → bool.
Variable w2 : Strings.Ascii.ascii → Strings.Ascii.ascii → bool.
Variable w3 :
  Strings.Ascii.ascii → Strings.Ascii.ascii → Strings.Ascii.ascii → bool.

Lemma strip_head_eq s :
  strip_head w1 w2 w3 s
  = match s with
    | String a s1 =>
        if w1 a then strip_head w1 w2 w3 s1
        else
          match s1 with
          | String b s2 =>
              if w2 a b then strip_head w1 w2 w3 s2
              else
                match s2 with
                | String c s3 =>
                    if w3 a b c then strip_head w1 w2 w3 s3 else s
                | EmptyString => s
                end
          | EmptyString => s
          end
    | EmptyString => EmptyString
    end.
Proof. by destruct s. Qed.

(** Induction on a string by the strings shorter than it. *)
Lemma shorter_ind (P : string → Prop) :
  (∀ s, (∀ t, (String.length t < String.length s)%nat → P t) → P s) →
  ∀ s, P s.
Proof.
  intros Hstep s. remember (String.length s) as n eqn:Hn. revert s Hn.
  induction n as [n IH] using lt_wf_ind. intros s ->.
  apply Hstep. intros t Ht. by apply (IH (String.length t)).
Qed.

Lemma strip_head_suffix s : ∃ p, s = p +:+ strip_head w1 w2 w3 s.
Proof.
  induction s as [s IH] using shorter_ind. rewrite strip_head_eq.
  destruct s as [|a [|b [|c s3]]]; [by exists EmptyString|..].
  - destruct (w1 a); [by exists (String a EmptyString)|by exists EmptyString].
  - destruct (w1 a).
    { destruct (IH (String b EmptyString)) as [p Hp]; [simpl; lia|].
      exists (String a p). by rewrite append_cons, <- Hp. }
    destruct (w2 a b); [|by exists EmptyString].
    by exists (String a (String b EmptyString)).
  - destruct (w1 a).
    { destruct (IH (String b (String c s3))) as [p Hp]; [simpl; lia|].
      exists (String a p). by rewrite append_cons, <- Hp. }
    destruct (w2 a b).
    { destruct (IH (String c s3)) as [p Hp]; [simpl; lia|].
      exists (String a (String b p)). by rewrite !append_cons, <- Hp. }
    destruct (w3 a b c); [|by exists EmptyString].
    destruct (IH s3) as [p Hp]; [simpl; lia|].
    exists (String a (String b (String c p))).
    by rewrite !append_cons, <- Hp.
Qed.

Lemma strip_head_no_start s :
  starts_with w1 w2 w3 (strip_head w1 w2 w3 s) = false.
Proof.
  induction s as [s IH] using shorter_ind. rewrite strip_head_eq.
  destruct s as [|a [|b [|c s3]]]; [done|..].
  - destruct (w1 a) eqn:H1; [done|]. simpl. by rewrite H1.
  - destruct (w1 a) eqn:H1; [apply IH; simpl; lia|].
    destruct (w2 a b) eqn:H2; [done|]. simpl. by rewrite H1, H2.
  - destruct (w1 a) eqn:H1; [apply IH; simpl; lia|].
    destruct (w2 a b) eqn:H2; [apply IH; simpl; lia|].
    destruct (w3 a b c) eqn:H3; [apply IH; simpl; lia|].
    simpl. by rewrite H1, H2, H3.
Qed.

Lemma strip_head_id s :
  starts_with w1 w2 w3 s = false → strip_head w1 w2 w3 s = s.
Proof.
  rewrite strip_head_eq.
  destruct s as [|a [|b [|c s3]]]; simpl; [done|..].
  - by intros [-> _]%orb_false_iff.
  - by intros [-> [-> _]%orb_false_iff]%orb_false_iff.
  - by intros [-> [-> ->]%orb_false_iff]%orb_false_iff.
Qed.

Lemma starts_with_append s1 s2 :
  starts_with w1 w2 w3 s1 = true → starts_with w1 w2 w3 (s1 +:+ s2) = true.
Proof.
  destruct s1 as [|a [|b [|c s3]]]; rewrite ?append_cons; simpl; [done|..].
  - rewrite orb_false_r. by intros ->.
  - rewrite orb_false_r.
    intros [->| ->]%orb_true_iff; [done|]. by rewrite orb_true_r.
  - done.
Qed.
End StripHeadFacts.

Lemma rstrip_prefix s : ∃ q, s = rstrip s +:+ q.
Proof.
  unfold rstrip.
  destruct (strip_head_suffix isspace (λ b a, isspace2 a b)
              (λ c b a, isspace3 a b c) (String.rev s)) as [p Hp].
  exists (String.rev p). rewrite <- rev_append, <- Hp.
  by rewrite rev_involutive.
Qed.

Lemma strip_stripped s : stripped (strip s).
Proof.
  unfold stripped, strip. split.
  - destruct (starts_with _ _ _ (rstrip (lstrip s))) eqn:Hstart; [|done].
    destruct (rstrip_prefix (lstrip s)) as [q Hq].
    apply (starts_with_append _ _ _ _ q) in Hstart. rewrite <- Hq in Hstart.
    unfold lstrip in Hstart. by rewrite strip_head_no_start in Hstart.
  - unfold rstrip. rewrite rev_involutive. apply strip_head_no_start.
Qed.

Lemma stripped_strip s : stripped s → strip s = s.
Proof.
  intros [Hhead Htail]. unfold strip, lstrip, rstrip.
  rewrite (strip_head_id _ _ _ s Hhead).
  rewrite (strip_head_id _ _ _ _ Htail). apply rev_involutive.
Qed.

Lemma strip_strip s : strip (strip s) = strip s.
Proof. apply stripped_strip, strip_stripped. Qed.

Lemma CommentForm_clean_Some data text :
  CommentForm_clean data = Some text →
  ∃ value, data !! "text" = Some value ∧ text = strip value
           ∧ text ≠ EmptyString ∧ has_null text = false.
Proof.
  unfold CommentForm_clean, bound_data.
  destruct (filter _ data !! "text") as [value|] eqn:Hv; [|done].
  apply map_lookup_filter_Some in Hv as [Hv _].
  case_bool_decide as Hne; [done|].
  destruct (has_null (strip value)) eqn:Hnull; [done|].
  intros [= <-]. by exists value.
Qed.

Lemma CommentForm_clean_text data value :
  data !! "text" = Some value →
  CommentForm_clean data
  = if bool_decide (strip value = EmptyString) then None
    else if has_null (strip value) then None
    else Some (strip value).
Proof.
  intros Hv. unfold CommentForm_clean, bound_data.
  assert (filter (λ kv, kv.1 ∈ CommentForm_fields) data !! "text"
          = Some value) as ->; [|done].
  apply map_lookup_filter_Some. split; [done|]. simpl.
  unfold CommentForm_fields. set_solver.
Qed.

(** X5.  The text of a comment that passes validation is the submitted
    text with the whitespace characters at both ends removed, those
    beyond ASCII too: it is not empty, it neither starts nor ends with a
    whitespace character, it holds no null character, and cleaning it
    again gives it back.  A submitted text is accepted exactly when what
    is left of it after stripping is not empty and holds no null
    character; without a text nothing is accepted; and no other submitted
    field has a say. *)
Theorem comment_text_cleaned data :
  (∀ text,
     CommentForm_clean data = Some text →
     (∃ value, data !! "text" = Some value ∧ text = strip value)
     ∧ text ≠ EmptyString
     ∧ stripped text
     ∧ strip text = text
     ∧ has_null text = false)
  ∧ (∀ value,
       data !! "text" = Some value →
       (strip value = EmptyString ∨ has_null (strip value) = true →
        CommentForm_clean data = None)
       ∧ (strip value ≠ EmptyString → has_null (strip value) = false →
          CommentForm_clean data = Some (strip value)))
  ∧ (data !! "text" = None → CommentForm_clean data = None)
  ∧ (∀ k v, k ≠ "text" →
            CommentForm_clean (<[k := v]> data) = CommentForm_clean data).
Proof.
  split; [|split; [|split]].
  - intros text (value & Hv & -> & Hne & Hnull)%CommentForm_clean_Some.
    split; [by exists value|]. split; [done|].
    split; [apply strip_stripped|]. split; [apply strip_strip|done].
  - intros value Hv. rewrite (CommentForm_clean_text _ _ Hv). split.
    + intros [Hblank|Hnull]; [by rewrite bool_decide_eq_true_2|].
      rewrite Hnull. by case_bool_decide.
    + intros Hne Hnull. by rewrite bool_decide_eq_false_2, Hnull.
  - intros Hnone. unfold CommentForm_clean, bound_data.
    destruct (filter _ data !! "text") as [value|] eqn:Hv; [|done].
    apply map_lookup_filter_Some in Hv as [Hv _]. congruence.
  - intros k v Hk. unfold CommentForm_clean.
    rewrite bound_data_insert_other; [done|].
    unfold CommentForm_fields. rewrite not_elem_of_cons.
    split; [done|apply not_elem_of_nil].
Qed.

(** ** What a request can do to the store *)

Lemma handle_effect PostForm_clean default_is_published st now request
    route u :
  user request = Some u →
  effect u now st
    (handle PostForm_clean default_is_published st now request route).1.
Proof.
  intros Hu.
  destruct route as [|post_id|post_id|post_id|post_id comment_id
                     |post_id comment_id]; simpl; unfold_views; rewrite Hu.
  - case_bool_decide; [|constructor].
    destruct (PostForm_is_valid _ _ _) as [cd|]; [|constructor].
    by apply effect_post_created.
  - rewrite get_by_pk. destruct (posts st !! post_id) as [p|] eqn:Hp;
      [|constructor]. simpl.
    case_bool_decide as Hauthor; [constructor|].
    case_bool_decide; [|constructor].
    destruct (PostForm_is_valid _ _ _) as [cd|]; [|constructor].
    apply (effect_post_saved _ _ _ post_id p); try done;
      by destruct (decide (Post.author p = u.1)).
  - case_bool_decide; [constructor|].
    rewrite get_by_pk. destruct (posts st !! post_id) as [p|] eqn:Hp;
      [|constructor].
    case_bool_decide as Hauthor; [constructor|].
    case_bool_decide; [|constructor].
    apply (effect_post_deleted _ _ _ post_id p); [done|].
    by destruct (decide (Post.author p = u.1)).
  - rewrite get_by_pk. destruct (posts st !! post_id) as [p|] eqn:Hp;
      [|constructor].
    destruct (CommentForm_clean _) as [text|] eqn:Hclean; [|constructor].
    simpl.
    apply CommentForm_clean_Some in Hclean as (value & _ & -> & Hne & _).
    apply (effect_comment_added _ _ _ post_id p); [done..|].
    apply strip_strip.
  - rewrite get_comment.
    destruct (comments st !! comment_id) as [c|] eqn:Hc; [|constructor].
    case_bool_decide; [|constructor]. simpl.
    case_bool_decide as Hauthor; [constructor|].
    case_bool_decide; [|constructor].
    destruct (CommentForm_clean _) as [text|] eqn:Hclean; [|constructor].
    apply CommentForm_clean_Some in Hclean as (value & _ & -> & Hne & _).
    apply effect_comment_saved; try done;
      first [apply strip_strip | by destruct (decide (Comment.author c = u.1))].
  - case_bool_decide; [constructor|].
    rewrite get_comment.
    destruct (comments st !! comment_id) as [c|] eqn:Hc; [|constructor].
    case_bool_decide; [|constructor]. simpl.
    case_bool_decide as Hauthor; [constructor|].
    case_bool_decide; [|constructor].
    apply (effect_comment_deleted _ _ _ comment_id c); [done|].
    by destruct (decide (Comment.author c = u.1)).
Qed.

Lemma lookup_delete_post_comments st id k c :
  comments (delete_post st id) !! k = Some c
  ↔ comments st !! k = Some c ∧ Comment.post c ≠ id.
Proof. unfold delete_post; simpl. by rewrite map_lookup_filter_Some. Qed.

(** X6.  A request writes only what is the requester's own: a post that
    is changed or removed by a request to a view that writes was authored
    by the requester, and a comment that is changed or removed was
    authored by the requester or was a comment on a post of the
    requester that the request deleted. *)
Theorem only_own_rows_written PostForm_clean default_is_published st now
    request route u :
  user request = Some u →
  let st' := (handle PostForm_clean default_is_published st now request
                route).1 in
  (∀ id p, posts st !! id = Some p → posts st' !! id ≠ Some p →
           Post.author p = u.1)
  ∧ (∀ k c, comments st !! k = Some c → comments st' !! k ≠ Some c →
            Comment.author c = u.1
            ∨ ∃ p, posts st !! Comment.post c = Some p
                   ∧ Post.author p = u.1
                   ∧ posts st' !! Comment.post c = None).
Proof.
  intros Hu st'.
  pose proof (handle_effect PostForm_clean default_is_published st now
                request route u Hu) as Heff.
  fold st' in Heff. clearbody st'.
  destruct Heff as [|q Hq|id0 p0 q Hp0 Ha0 Hq _|id0 p0 Hp0 Ha0
                    |post_id p0 text Hp0 _ _|k0 c0 text Hc0 Ha0 _ _
                    |k0 c0 Hc0 Ha0]; simpl.
  - split; [by intros ???|by intros ???].
  - split; [|by intros ???]. intros id p Hp Hne. destruct Hne.
    rewrite lookup_insert_ne; [done|].
    intros <-. by rewrite next_pk_fresh in Hp.
  - split; [|by intros ???]. intros id p Hp Hne.
    destruct (decide (id0 = id)) as [<-|Hid]; [congruence|].
    destruct Hne. by rewrite lookup_insert_ne.
  - split.
    + intros id p Hp Hne. destruct (decide (id0 = id)) as [<-|Hid];
        [congruence|].
      destruct Hne. by rewrite lookup_delete_ne.
    + intros k c Hc Hne.
      destruct (decide (Comment.post c = id0)) as [Hpost|Hpost].
      * right. exists p0. rewrite Hpost. split; [done|]. split; [done|].
        apply lookup_delete_eq.
      * destruct Hne.
        by apply (lookup_delete_post_comments st id0 k c).
  - split; [by intros ???|]. intros k c Hc Hne. destruct Hne.
    rewrite lookup_insert_ne; [done|].
    intros <-. by rewrite next_pk_fresh in Hc.
  - split; [by intros ???|]. intros k c Hc Hne.
    destruct (decide (k0 = k)) as [<-|Hk]; [left; congruence|].
    destruct Hne. by rewrite lookup_insert_ne.
  - split; [by intros ???|]. intros k c Hc Hne.
    destruct (decide (k0 = k)) as [<-|Hk]; [left; congruence|].
    destruct Hne. by rewrite lookup_delete_ne.
Qed.

Lemma handle_anonymous PostForm_clean default_is_published st now request
    route :
  user request = None →
  (handle PostForm_clean default_is_published st now request route).1 = st.
Proof. intros Hanon. destruct route; simpl; unfold_views; by rewrite Hanon. Qed.

Lemma handle_keeps_tables PostForm_clean default_is_published st now
    request route :
  let st' := (handle PostForm_clean default_is_published st now request
                route).1 in
  users st' = users st ∧ categories st' = categories st
  ∧ locations st' = locations st.
Proof.
  intros st'. destruct (user request) as [u|] eqn:Hu.
  - pose proof (handle_effect PostForm_clean default_is_published st now
                  request route u Hu) as Heff.
    fold st' in Heff. clearbody st'. by destruct Heff.
  - subst st'. by rewrite handle_anonymous.
Qed.

(** X7.  What no request to a view that writes posts and comments can
    change: the author, the post and the creation time of a comment that
    is stored before and after the request, the publication flag of a
    post that is stored before and after it, and the tables of users,
    categories and locations. *)
Theorem fields_no_request_changes PostForm_clean default_is_published st now
    request route :
  let st' := (handle PostForm_clean default_is_published st now request
                route).1 in
  (∀ k c c', comments st !! k = Some c → comments st' !! k = Some c' →
             Comment.author c' = Comment.author c
             ∧ Comment.post c' = Comment.post c
             ∧ Comment.created_at c' = Comment.created_at c)
  ∧ (∀ id p p', posts st !! id = Some p → posts st' !! id = Some p' →
                Post.is_published p' = Post.is_published p)
  ∧ users st' = users st
  ∧ categories st' = categories st
  ∧ locations st' = locations st.
Proof.
  intros st'. destruct (user request) as [u|] eqn:Hu.
  2:{ subst st'. rewrite handle_anonymous by done.
      split; [intros ??? H1 H2; by simplify_eq|].
      split; [intros ??? H1 H2; by simplify_eq|done]. }
  pose proof (handle_effect PostForm_clean default_is_published st now
                request route u Hu) as Heff.
  fold st' in Heff. clearbody st'.
  destruct Heff as [|q Hq|id0 p0 q Hp0 Ha0 Hq Hpub|id0 p0 Hp0 Ha0
                    |post_id p0 text Hp0 _ _|k0 c0 text Hc0 Ha0 _ _
                    |k0 c0 Hc0 Ha0]; simpl;
    (split; [|split; [|done]]).
  - intros ??? H1 H2; by simplify_eq.
  - intros ??? H1 H2; by simplify_eq.
  - intros ??? H1 H2; by simplify_eq.
  - intros id p p' Hp Hp'. destruct (decide (next_pk (posts st) = id))
      as [<-|Hid]; [by rewrite next_pk_fresh in Hp|].
    rewrite lookup_insert_ne in Hp' by done. by simplify_eq.
  - intros ??? H1 H2; by simplify_eq.
  - intros id p p' Hp Hp'. destruct (decide (id0 = id)) as [<-|Hid].
    + rewrite lookup_insert_eq in Hp'. by simplify_eq.
    + rewrite lookup_insert_ne in Hp' by done. by simplify_eq.
  - intros k c c' Hc [Hc' _]%map_lookup_filter_Some. by simplify_eq.
  - intros id p p' Hp Hp'. destruct (decide (id0 = id)) as [<-|Hid].
    + by rewrite lookup_delete_eq in Hp'.
    + rewrite lookup_delete_ne in Hp' by done. by simplify_eq.
  - intros k c c' Hc Hc'. destruct (decide (next_pk (comments st) = k))
      as [<-|Hk]; [by rewrite next_pk_fresh in Hc|].
    rewrite lookup_insert_ne in Hc' by done. by simplify_eq.
  - intros ??? H1 H2; by simplify_eq.
  - intros k c c' Hc Hc'. destruct (decide (k0 = k)) as [<-|Hk].
    + rewrite lookup_insert_eq in Hc'. by simplify_eq.
    + rewrite lookup_insert_ne in Hc' by done. by simplify_eq.
  - intros ??? H1 H2; by simplify_eq.
  - intros k c c' Hc Hc'. destruct (decide (k0 = k)) as [<-|Hk].
    + by rewrite lookup_delete_eq in Hc'.
    + rewrite lookup_delete_ne in Hc' by done. by simplify_eq.
  - intros ??? H1 H2; by simplify_eq.
Qed.

(** X8.  Whatever sequence of requests the views that write posts and
    comments answer, the tables of users, categories and locations are
    afterwards what they were. *)
Theorem run_keeps_users_and_categories PostForm_clean default_is_published
    requests st :
  let st' := run PostForm_clean default_is_published st requests in
  users st' = users st
  ∧ categories st' = categories st
  ∧ locations st' = locations st.
Proof.
  revert st. induction requests as [|[[now request] route] requests IH];
    intros st; [done|].
  simpl. specialize (IH (handle PostForm_clean default_is_published st now
                           request route).1).
  destruct IH as (-> & -> & ->).
  by destruct (handle_keeps_tables PostForm_clean default_is_published st
                 now request route) as (-> & -> & ->).
Qed.

(** ** Comment counts *)

Lemma count_comments_new st k c id :
  comments st !! k = None →
  count_comments (set_comments st (<[k := c]> (comments st))) id
  = (count_comments st id
     + if decide (Comment.post c = id) then 1 else 0)%nat.
Proof.
  intros Hk. rewrite !count_comments_size. simpl.
  rewrite map_filter_insert. simpl. destruct (decide (Comment.post c = id)).
  - rewrite map_size_insert_None; [lia|].
    apply map_lookup_filter_None_2. by left.
  - rewrite delete_id by done. lia.
Qed.

Lemma count_comments_saved st k c0 c id :
  comments st !! k = Some c0 → Comment.post c = Comment.post c0 →
  count_comments (set_comments st (<[k := c]> (comments st))) id
  = count_comments st id.
Proof.
  intros Hk Hpost. rewrite !count_comments_size. simpl.
  rewrite map_filter_insert. simpl. destruct (decide (Comment.post c = id)).
  - apply map_size_insert_Some. exists c0.
    apply map_lookup_filter_Some. split; [done|]. simpl. congruence.
  - rewrite map_filter_delete. rewrite delete_id; [done|].
    apply map_lookup_filter_None_2. right. intros c1 Hc1. simpl.
    congruence.
Qed.

Lemma count_comments_deleted st k c0 id :
  comments st !! k = Some c0 →
  count_comments st id
  = (count_comments (delete_comment_row st k) id
     + if decide (Comment.post c0 = id) then 1 else 0)%nat.
Proof.
  intros Hk. rewrite !count_comments_size. simpl.
  rewrite map_filter_delete. destruct (decide (Comment.post c0 = id)).
  - assert (filter (λ kv, Comment.post kv.2 = id) (comments st) !! k
            = Some c0) as Hf by (by apply map_lookup_filter_Some).
    rewrite map_size_delete, Hf. simpl.
    assert (size (filter (λ kv, Comment.post kv.2 = id) (comments st)) ≠ 0%nat)
      as Hne.
    { intros Hz%map_size_empty_iff. by rewrite Hz in Hf. }
    lia.
  - rewrite delete_id; [lia|].
    apply map_lookup_filter_None_2. right. intros c1 Hc1. simpl. congruence.
Qed.

Lemma elem_of_post_comments st id k c :
  (k, c) ∈ post_comments st id
  ↔ comments st !! k = Some c ∧ Comment.post c = id.
Proof.
  unfold post_comments. rewrite order_by_created_at_perm.
  rewrite list_elem_of_filter, elem_of_objects. simpl. tauto.
Qed.

(** X9.  A comment that passes validation is added whatever the post, one
    the requester may not view too: it is stored under a new key with the
    requester as author, the post named as post and the clock as creation
    time; every stored comment stays as it is; the comment count of the
    post goes up by one and no other count changes; the new comment is
    among the comments the single-post view lists for the post. *)
Theorem comment_added st now request u post_id p text :
  user request = Some u →
  posts st !! post_id = Some p →
  CommentForm_clean (POST request) = Some text →
  let st' := (add_comment st now request post_id).1 in
  let new := next_pk (comments st) in
  (add_comment st now request post_id).2
  = inr (Redirect (url_post_detail post_id))
  ∧ comments st !! new = None
  ∧ comments st' !! new = Some (Comment.mk text now post_id u.1)
  ∧ (∀ k c, comments st !! k = Some c → comments st' !! k = Some c)
  ∧ posts st' = posts st
  ∧ count_comments st' post_id = S (count_comments st post_id)
  ∧ (∀ id, id ≠ post_id → count_comments st' id = count_comments st id)
  ∧ (new, Comment.mk text now post_id u.1) ∈ post_comments st' post_id.
Proof.
  intros Hu Hp Hclean st' new. subst st'.
  unfold add_comment, login_required.
  rewrite Hu, get_by_pk, Hp, Hclean. simpl. fold new.
  pose proof (next_pk_fresh (comments st)) as Hfresh. fold new in Hfresh.
  split; [done|]. split; [done|].
  split; [apply lookup_insert_eq|].
  split.
  { intros k c Hc. rewrite lookup_insert_ne; [done|]. congruence. }
  split; [done|]. split; [|split].
  - rewrite count_comments_new by done. simpl.
    rewrite decide_True by done. lia.
  - intros id Hid. rewrite count_comments_new by done. simpl.
    rewrite decide_False by done. lia.
  - apply elem_of_post_comments. simpl. by rewrite lookup_insert_eq.
Qed.

(** X10.  The author of a comment who posts a valid text to the edit view
    changes the text of that comment and nothing else: the comment keeps
    its author, post and creation time and stays among the comments of
    its post, every other comment and every post stay as they are, and no
    comment count changes. *)
Theorem owner_edits_comment st request u post_id comment_id c text :
  user request = Some u →
  method request = "POST" →
  comments st !! comment_id = Some c →
  Comment.post c = post_id →
  Comment.author c = u.1 →
  CommentForm_clean (POST request) = Some text →
  let st' := (edit_comment st request post_id comment_id).1 in
  let saved := Comment.mk text (Comment.created_at c) (Comment.post c)
                          (Comment.author c) in
  (edit_comment st request post_id comment_id).2
  = inr (Redirect (url_post_detail post_id))
  ∧ comments st' !! comment_id = Some saved
  ∧ (∀ k, k ≠ comment_id → comments st' !! k = comments st !! k)
  ∧ posts st' = posts st
  ∧ (∀ id, count_comments st' id = count_comments st id)
  ∧ (comment_id, saved) ∈ post_comments st' post_id.
Proof.
  intros Hu Hm Hc Hpost Hauthor Hclean st' saved. subst st'.
  unfold edit_comment, login_required.
  rewrite Hu, get_comment, Hc. rewrite (bool_decide_eq_true_2 _ Hpost).
  simpl. rewrite bool_decide_eq_false_2 by (intros Hn; by apply Hn).
  rewrite (bool_decide_eq_true_2 _ Hm), Hclean. simpl. fold saved.
  split; [done|]. split; [apply lookup_insert_eq|].
  split; [by intros k Hk; rewrite lookup_insert_ne|].
  split; [done|]. split.
  - intros id. by apply (count_comments_saved st comment_id c).
  - apply elem_of_post_comments. simpl. by rewrite lookup_insert_eq.
Qed.

(** X11.  The author of a comment who posts to the delete view removes
    that comment and nothing else: every other comment and every post stay
    as they are, the comment count of its post goes down by one and no
    other count changes, and the single-post view lists it no more. *)
Theorem owner_deletes_comment st request u post_id comment_id c :
  user request = Some u →
  method request = "POST" →
  comments st !! comment_id = Some c →
  Comment.post c = post_id →
  Comment.author c = u.1 →
  let st' := (delete_comment st request post_id comment_id).1 in
  (delete_comment st request post_id comment_id).2
  = inr (Redirect (url_post_detail post_id))
  ∧ comments st' !! comment_id = None
  ∧ (∀ k, k ≠ comment_id → comments st' !! k = comments st !! k)
  ∧ posts st' = posts st
  ∧ count_comments st post_id = S (count_comments st' post_id)
  ∧ (∀ id, id ≠ post_id → count_comments st' id = count_comments st id)
  ∧ (∀ id c', (comment_id, c') ∉ post_comments st' id).
Proof.
  intros Hu Hm Hc Hpost Hauthor st'. subst st'.
  unfold delete_comment, login_required, require_http_methods.
  rewrite Hu, get_comment, Hc. rewrite (bool_decide_eq_true_2 _ Hpost).
  rewrite (bool_decide_eq_false_2 (method request ∉ _)).
  2:{ intros Hn. apply Hn. rewrite Hm. set_solver. }
  simpl. rewrite bool_decide_eq_false_2 by (intros Hn; by apply Hn).
  rewrite (bool_decide_eq_true_2 _ Hm). simpl.
  split; [done|]. split; [apply lookup_delete_eq|].
  split; [by intros k Hk; rewrite lookup_delete_ne|].
  split; [done|]. split; [|split].
  - rewrite (count_comments_deleted st comment_id c post_id Hc).
    rewrite decide_True by done. lia.
  - intros id Hid. rewrite (count_comments_deleted st comment_id c id Hc).
    rewrite decide_False by congruence. lia.
  - intros id c' [Hin _]%elem_of_post_comments. simpl in Hin.
    by rewrite lookup_delete_eq in Hin.
Qed.

(** ** Posts *)

(** X12.  The author of a post who posts to the delete view removes it:
    every other post stays as it is, as does every comment on another
    post; the requester is sent to the own profile; and from then on the
    single-post view answers not-found for its id to everyone, the author
    too, and no page of the home feed or of a profile holds it. *)
Theorem owner_deletes_post int_of_str st request u post_id p :
  user request = Some u →
  method request = "POST" →
  posts st !! post_id = Some p →
  Post.author p = u.1 →
  let st' := (post_delete st request post_id).1 in
  (post_delete st request post_id).2
  = inr (Redirect (url_profile (User.username u.2)))
  ∧ posts st' !! post_id = None
  ∧ (∀ id, id ≠ post_id → posts st' !! id = posts st !! id)
  ∧ (∀ k c, comments st !! k = Some c → Comment.post c ≠ post_id →
            comments st' !! k = Some c)
  ∧ (∀ now request',
       post_detail st' now request' post_id
       = inl (Http404 "No Post matches the given query."))
  ∧ (∀ now p', ¬ on_a_page (index_post_list st' now) post_id p')
  ∧ (∀ username request' author pg,
       profile int_of_str st' request' username
       = inr (Render "blog/profile.html" (ctx_profile author pg)) →
       ∀ r, r ∈ object_list pg → pk r ≠ post_id).
Proof.
  intros Hu Hm Hp Hauthor st'. subst st'.
  unfold post_delete, login_required, require_http_methods.
  rewrite Hu, get_by_pk, Hp.
  rewrite (bool_decide_eq_false_2 (method request ∉ _)).
  2:{ intros Hn. apply Hn. rewrite Hm. set_solver. }
  simpl. rewrite bool_decide_eq_false_2 by (intros Hn; by apply Hn).
  rewrite (bool_decide_eq_true_2 _ Hm). simpl.
  assert (posts (delete_post st post_id) !! post_id = None) as Hgone
    by apply lookup_delete_eq.
  split; [done|]. split; [done|].
  split; [by intros id Hid; apply lookup_delete_ne|].
  split; [by intros k c Hc Hne; apply lookup_delete_post_comments|].
  split; [by intros now request'; apply post_detail_missing|].
  split.
  - intros now p' (r & Hr & Hpk & _)%on_a_page_iff.
    apply elem_of_index_post_list in Hr as [Hr _].
    rewrite Hpk in Hr. congruence.
  - intros username request' author pg. unfold profile.
    destruct (get_object_or_404 _ _) as [exc|a]; [done|]. simpl.
    destruct (paginate_is_page int_of_str request'
                (profile_post_list (delete_post st post_id) a.1))
      as (pg' & -> & n & _ & ->).
    intros [= _ <-] r Hr%page_slice_subseteq Hpk. simpl in Hr.
    apply elem_of_profile_post_list in Hr as [Hr _].
    rewrite Hpk in Hr. congruence.
Qed.

(** X13.  A view writes only when it answers with a redirect: whenever
    the answer is a rendered page, a 404 or a 405, the store is as it
    was, so that no failed or half-done request leaves a trace.  The same
    holds for the views on users. *)
Theorem no_write_without_redirect PostForm_clean default_is_published
    UserEditForm_clean UserRegistrationForm_clean st now request route :
  let answer :=
    handle PostForm_clean default_is_published st now request route in
  match answer.2 with
  | inr (Redirect _) => True
  | _ => answer.1 = st
  end
  ∧ match (edit_profile UserEditForm_clean st request).2 with
    | render_form _ _ => (edit_profile UserEditForm_clean st request).1 = st
    | _ => True
    end
  ∧ match (registration UserRegistrationForm_clean st request).2 with
    | render_form _ _ =>
        (registration UserRegistrationForm_clean st request).1 = st
    | _ => True
    end.
Proof.
  split; [|split].
  - destruct route; simpl; unfold_views;
      destruct (user request) as [u|]; try done;
      rewrite ?get_by_pk, ?get_comment;
      repeat (case_bool_decide || case_match); simplify_eq/=; done.
  - unfold_views. by repeat (case_bool_decide || case_match).
  - unfold_views. by repeat (case_bool_decide || case_match).
Qed.

(** X14.  A post that passes validation at the create view is stored under
    a new key and is at once on a page of the profile of its author and
    served to its author by the single-post view; it is on a page of the
    home feed at a time iff the default of [is_published] is true, the
    category chosen is a published one and the date chosen is not after
    that time. *)
Theorem created_post_is_listed PostForm_clean default_is_published st request
    u cd :
  user request = Some u →
  method request = "POST" →
  PostForm_is_valid PostForm_clean st
    (mkForm (Some (POST request, FILES request)) None) = Some cd →
  let st' := (post_create PostForm_clean default_is_published st request).1 in
  let id := next_pk (posts st) in
  let p := Post.mk (cd_title cd) (cd_text cd) (cd_pub_date cd) u.1
                   (cd_location cd) (cd_category cd) (cd_image cd)
                   default_is_published in
  posts st !! id = None
  ∧ posts st' !! id = Some p
  ∧ on_a_page (profile_post_list st' u.1) id p
  ∧ (∀ now request',
       user request' = Some u →
       ∃ cs form,
         post_detail st' now request' id
         = inr (Render "blog/detail.html" (ctx_detail (id, p) cs form)))
  ∧ (∀ now,
       on_a_page (index_post_list st' now) id p
       ↔ default_is_published = true
         ∧ (∃ k c, cd_category cd = Some k ∧ categories st !! k = Some c
                   ∧ Category.is_published c = true)
         ∧ cd_pub_date cd ≤ now).
Proof.
  intros Hu Hm Hvalid st' id p. subst st'.
  unfold post_create, login_required.
  rewrite Hu, (bool_decide_eq_true_2 _ Hm), Hvalid. simpl. fold id p.
  set (st' := set_posts st (<[id := p]> (posts st))).
  assert (posts st' !! id = Some p) as Hid by apply lookup_insert_eq.
  split; [apply next_pk_fresh|]. split; [done|]. split; [|split].
  - by apply on_a_page_profile.
  - intros now request' Hu'. rewrite (post_detail_found _ _ _ _ _ Hid).
    assert (is_authenticated request' && user_eq request' (Post.author p)
            = true) as ->.
    { apply is_author_iff. exists u.2. rewrite Hu'. by destruct u. }
    rewrite andb_false_r. eauto.
  - intros now. rewrite on_a_page_iff. split.
    + intros (r & Hr%elem_of_index_post_list & Hpk & Hrow).
      rewrite Hrow in Hr. simpl in Hr. tauto.
    + intros (Hpub & Hcat & Hdate).
      exists (mkRow id p (count_comments st' id)). split; [|done].
      apply elem_of_index_post_list. done.
Qed.

(** ** How the listings and the single-post view agree *)

Lemma post_detail_public st now request id p :
  posts st !! id = Some p →
  Post.is_published p = true →
  (∀ c, related_category st p = Some c → Category.is_published c = true) →
  Post.pub_date p ≤ now →
  ∃ cs form,
    post_detail st now request id
    = inr (Render "blog/detail.html" (ctx_detail (id, p) cs form)).
Proof.
  intros Hid Hpub Hcat Hdate. rewrite (post_detail_found _ _ _ _ _ Hid).
  assert (Post.is_published p
          && match related_category st p with
             | None => true
             | Some c => Category.is_published c
             end
          && bool_decide (Post.pub_date p ≤ now) = true) as ->
    by (by apply is_public_iff).
  simpl. eauto.
Qed.

(** X15.  The public listings and the single-post view agree: a post on a
    page of the home feed is served by the single-post view to every
    requester, is on a page of the feed of its category, which is
    published, and on a page of the profile of its author; and a post on
    a page of the feed of a published category is on a page of the home
    feed. *)
Theorem listings_agree st now :
  (∀ id p,
     on_a_page (index_post_list st now) id p →
     (∀ request, ∃ cs form,
        post_detail st now request id
        = inr (Render "blog/detail.html" (ctx_detail (id, p) cs form)))
     ∧ (∃ k c, Post.category p = Some k ∧ categories st !! k = Some c
               ∧ Category.is_published c = true
               ∧ on_a_page (category_post_list st now k) id p)
     ∧ on_a_page (profile_post_list st (Post.author p)) id p)
  ∧ (∀ k c id p,
       categories st !! k = Some c → Category.is_published c = true →
       on_a_page (category_post_list st now k) id p →
       on_a_page (index_post_list st now) id p).
Proof.
  split.
  - intros id p (r & Hr & <- & <-)%on_a_page_iff.
    apply elem_of_index_post_list
      in Hr as (Hp & Hcount & Hpub & (k & c & Hk & Hc & Hcpub) & Hdate).
    split; [|split].
    + intros request. apply post_detail_public; try done.
      unfold related_category. rewrite Hk. simpl. rewrite Hc.
      by intros ? [= <-].
    + exists k, c. repeat split; try done.
      apply on_a_page_iff. exists r. split; [|done].
      by apply elem_of_category_post_list.
    + by apply on_a_page_profile.
  - intros k c id p Hk Hcpub (r & Hr & <- & <-)%on_a_page_iff.
    apply elem_of_category_post_list
      in Hr as (Hp & Hcount & Hcat & Hpub & Hdate).
    apply on_a_page_iff. exists r. split; [|done].
    apply elem_of_index_post_list. repeat split; try done.
    by exists k, c.
Qed.

(** X16.  The comment count a listing shows for a post is the number of
    comments the single-post view lists for it. *)
Theorem comment_count_is_listed_comments st now r :
  (r ∈ index_post_list st now
   ∨ (∃ k, r ∈ category_post_list st now k)
   ∨ (∃ k, r ∈ profile_post_list st k)) →
  comment_count r = length (post_comments st (pk r)).
Proof.
  intros Hr.
  assert (comment_count r = count_comments st (pk r)) as ->.
  { destruct Hr as [Hr|[[k Hr]|[k Hr]]].
    - by apply elem_of_index_post_list in Hr as (_ & ? & _).
    - by apply elem_of_category_post_list in Hr as (_ & ? & _).
    - by apply elem_of_profile_post_list in Hr as (_ & ? & _). }
  unfold count_comments, post_comments.
  by rewrite order_by_created_at_perm.
Qed.

(** ** Pages *)











(** ** Users *)

Lemma profile_post_list_set_users st m k :
  profile_post_list (set_users st m) k = profile_post_list st k.
Proof. reflexivity. Qed.

(** X19.  A valid edit of the profile writes the row of the requester and
    no other: the user keeps the key, every other user, and every post,
    comment, category and location stay as they are, so the posts listed
    for the user are the same; the requester is sent to the profile under
    the username just saved, which, usernames being unique, shows those
    posts; and a submitted field the form does not declare changes
    nothing of what is stored. *)
Theorem profile_edited int_of_str UserEditForm_clean st request u cleaned :
  user request = Some u →
  method request = "POST" →
  UserEditForm_clean st u (bound_data UserEditForm_fields (POST request))
  = Some cleaned →
  let st' := (edit_profile UserEditForm_clean st request).1 in
  (edit_profile UserEditForm_clean st request).2
  = redirect_to (url_profile (User.username cleaned))
  ∧ users st' !! u.1 = Some cleaned
  ∧ (∀ k, k ≠ u.1 → users st' !! k = users st !! k)
  ∧ posts st' = posts st ∧ comments st' = comments st
  ∧ categories st' = categories st ∧ locations st' = locations st
  ∧ (username_unique st' →
     ∀ request', ∃ pg,
       profile int_of_str st' request' (User.username cleaned)
       = inr (Render "blog/profile.html" (ctx_profile (u.1, cleaned) pg))
       ∧ is_page_of (profile_post_list st u.1) pg)
  ∧ (∀ key v,
       key ∉ UserEditForm_fields →
       (edit_profile UserEditForm_clean st
          (with_POST request (<[key := v]> (POST request)))).1 = st').
Proof.
  intros Hu Hm Hclean st'. subst st'. unfold edit_profile.
  rewrite Hu, (bool_decide_eq_true_2 _ Hm), Hclean. simpl.
  split; [done|]. split; [apply lookup_insert_eq|].
  split; [by intros k Hk; rewrite lookup_insert_ne|].
  do 4 (split; [done|]). split.
  - intros Huniq request'.
    apply (profile_found int_of_str _ request' u.1 cleaned Huniq).
    apply lookup_insert_eq.
  - intros key v Hkey. rewrite Hu, (bool_decide_eq_true_2 _ Hm).
    rewrite (bound_data_insert_other _ _ _ _ Hkey). by rewrite Hclean.
Qed.

(** X20.  Registration asks for no login and never touches what is
    stored: every user, post, comment, category and location stays as it
    is whatever is submitted.  A valid submission adds one user under a
    new key and sends the requester to the login page, logged in as
    nobody; and a submitted field the form does not declare changes
    nothing of what is stored. *)
Theorem registration_adds_one_user UserRegistrationForm_clean st request :
  let st' := (registration UserRegistrationForm_clean st request).1 in
  (∀ k u, users st !! k = Some u → users st' !! k = Some u)
  ∧ posts st' = posts st ∧ comments st' = comments st
  ∧ categories st' = categories st ∧ locations st' = locations st
  ∧ (∀ cleaned,
       method request = "POST" →
       UserRegistrationForm_clean st
         (bound_data UserRegistrationForm_fields (POST request))
       = Some cleaned →
       (registration UserRegistrationForm_clean st request).2
       = redirect_login
       ∧ users st !! next_pk (users st) = None
       ∧ users st' = <[next_pk (users st) := cleaned]> (users st))
  ∧ (∀ key v,
       key ∉ UserRegistrationForm_fields →
       (registration UserRegistrationForm_clean st
          (with_POST request (<[key := v]> (POST request)))).1 = st').
Proof.
  intros st'. subst st'. unfold registration. simpl.
  split; [|split; [|split; [|split; [|split; [|split]]]]].
  - intros k u Hk. repeat (case_bool_decide || case_match); try done.
    simpl. rewrite lookup_insert_ne; [done|].
    intros <-. by rewrite next_pk_fresh in Hk.
  - by repeat (case_bool_decide || case_match).
  - by repeat (case_bool_decide || case_match).
  - by repeat (case_bool_decide || case_match).
  - by repeat (case_bool_decide || case_match).
  - intros cleaned Hm Hclean.
    rewrite (bool_decide_eq_true_2 _ Hm), Hclean. simpl.
    split; [done|]. split; [apply next_pk_fresh|done].
  - intros key v Hkey. rewrite (bound_data_insert_other _ _ _ _ Hkey).
    case_bool_decide; [|done].
    by destruct (UserRegistrationForm_clean _ _).
Qed.

(** ** More on posts and listings *)

(** X21.  A valid edit by the author of a post writes the six fields of
    the form and nothing else: the post keeps its key, its author and its
    publication flag, every other post and every comment stay as they
    are, and the single-post view serves the author the post as saved. *)
Theorem owner_edits_post PostForm_clean st request u post_id p cd :
  user request = Some u →
  method request = "POST" →
  posts st !! post_id = Some p →
  Post.author p = u.1 →
  PostForm_is_valid PostForm_clean st
    (mkForm (Some (POST request, FILES request)) (Some (post_id, p)))
  = Some cd →
  let st' := (post_edit PostForm_clean st request post_id).1 in
  let saved := Post.mk (cd_title cd) (cd_text cd) (cd_pub_date cd)
                       (Post.author p) (cd_location cd) (cd_category cd)
                       (cd_image cd) (Post.is_published p) in
  (post_edit PostForm_clean st request post_id).2
  = inr (Redirect (url_post_detail post_id))
  ∧ posts st' !! post_id = Some saved
  ∧ (∀ id, id ≠ post_id → posts st' !! id = posts st !! id)
  ∧ comments st' = comments st
  ∧ (∀ now request',
       user request' = Some u →
       ∃ cs form,
         post_detail st' now request' post_id
         = inr (Render "blog/detail.html"
                  (ctx_detail (post_id, saved) cs form))).
Proof.
  intros Hu Hm Hp Hauthor Hvalid st' saved. subst st'.
  unfold post_edit, login_required. rewrite Hu, get_by_pk, Hp. simpl.
  rewrite bool_decide_eq_false_2 by (intros Hn; by apply Hn).
  rewrite (bool_decide_eq_true_2 _ Hm), Hvalid. simpl.
  rewrite <- Hauthor. fold saved.
  set (st' := set_posts st (<[post_id := saved]> (posts st))).
  assert (posts st' !! post_id = Some saved) as Hid by apply lookup_insert_eq.
  split; [done|]. split; [done|].
  split; [by intros id Hne; apply lookup_insert_ne|]. split; [done|].
  intros now request' Hu'. rewrite (post_detail_found _ _ _ _ _ Hid).
  assert (is_authenticated request' && user_eq request' (Post.author saved)
          = true) as ->.
  { apply is_author_iff. exists u.2. rewrite Hu'. simpl. rewrite Hauthor.
    by destruct u. }
  rewrite andb_false_r. eauto.
Qed.

Lemma NoDup_annotate st qs :
  NoDup qs.*1 → NoDup (pk <$> annotate st qs).
Proof.
  unfold annotate. by rewrite <- list_fmap_compose.
Qed.

Lemma NoDup_filter_fst {A} (P : nat * A → Prop) `{!∀ x, Decision (P x)}
    (m : gmap nat A) :
  NoDup (filter P (objects m)).*1.
Proof.
  apply (NoDup_fmap_2_strong fst).
  - intros [k1 x1] [k2 x2] [_ H1%elem_of_objects]%list_elem_of_filter
      [_ H2%elem_of_objects]%list_elem_of_filter Heq.
    simpl in Heq. subst. congruence.
  - apply NoDup_filter, NoDup_objects.
Qed.

(** X22.  No post is twice in a listing: the posts of the home feed, of a
    category feed and of a profile feed have pairwise different keys, so
    that, the pages cutting the listing, no post is on two pages or twice
    on one. *)
Theorem listings_have_no_duplicates st now k :
  NoDup (pk <$> index_post_list st now)
  ∧ NoDup (pk <$> category_post_list st now k)
  ∧ NoDup (pk <$> profile_post_list st k).
Proof.
  unfold index_post_list, category_post_list, profile_post_list,
    order_by_pub_date_desc.
  rewrite !merge_sort_Permutation. split; [|split].
  - apply NoDup_annotate. rewrite list_filter_filter. apply NoDup_filter_fst.
  - apply NoDup_annotate, NoDup_filter_fst.
  - apply NoDup_annotate, NoDup_filter_fst.
Qed.

(** X23.  The posts of a category that is not published are public
    nowhere: none is on a page of the home feed, the feed of the category
    answers not-found, and the single-post view answers not-found to
    everyone but the author of the post. *)
Theorem unpublished_category_hides_posts int_of_str st now k c id p :
  categories st !! k = Some c →
  Category.is_published c = false →
  posts st !! id = Some p →
  Post.category p = Some k →
  ¬ on_a_page (index_post_list st now) id p
  ∧ (∀ request,
       (∀ k' c', categories st !! k' = Some c' →
                 Category.slug c' = Category.slug c →
                 Category.is_published c' = false) →
       category_posts int_of_str st now request (Category.slug c)
       = inl (Http404 "No Category matches the given query."))
  ∧ (∀ request,
       (∀ u, user request ≠ Some (Post.author p, u)) →
       post_detail st now request id = inl (Http404 "Post not found")).
Proof.
  intros Hk Hhidden Hid Hcat. split; [|split].
  - intros (r & Hr & <- & <-)%on_a_page_iff.
    apply elem_of_index_post_list in Hr
      as (_ & _ & _ & (k' & c' & Hk' & Hc' & Hpub) & _).
    congruence.
  - intros request Hall. by apply category_posts_none.
  - intros request Hnot. rewrite (post_detail_found _ _ _ _ _ Hid).
    unfold related_category. rewrite Hcat. simpl. rewrite Hk, Hhidden.
    rewrite andb_false_r. simpl.
    destruct (is_authenticated request && user_eq request (Post.author p))
      eqn:Hauth; [|done].
    apply is_author_iff in Hauth as [u Hu]. by destruct (Hnot u).
Qed.

(** X24.  Publication is scheduled by the date: a post dated after the
    clock is on no page of the home feed and is served by the single-post
    view to its author only; and as time passes nothing public is
    withdrawn: what is on a page of the home feed, or served to a
    requester, at one time is so at every later time, the store being the
    same. *)
Theorem publication_follows_the_clock st now id p :
  posts st !! id = Some p →
  (now < Post.pub_date p →
   ¬ on_a_page (index_post_list st now) id p
   ∧ ∀ request,
       (∀ u, user request ≠ Some (Post.author p, u)) →
       post_detail st now request id = inl (Http404 "Post not found"))
  ∧ (∀ later,
       now ≤ later →
       (on_a_page (index_post_list st now) id p →
        on_a_page (index_post_list st later) id p)
       ∧ ∀ request resp,
           post_detail st now request id = inr resp →
           post_detail st later request id = inr resp).
Proof.
  intros Hid. split.
  - intros Hfuture. split.
    + intros (r & Hr & <- & <-)%on_a_page_iff.
      apply elem_of_index_post_list in Hr as (_ & _ & _ & _ & Hdate). lia.
    + intros request Hnot. rewrite (post_detail_found _ _ _ _ _ Hid).
      rewrite (bool_decide_eq_false_2 (Post.pub_date p ≤ now)) by lia.
      rewrite andb_false_r. simpl.
      destruct (is_authenticated request && user_eq request (Post.author p))
        eqn:Hauth; [|done].
      apply is_author_iff in Hauth as [u Hu]. by destruct (Hnot u).
  - intros later Hlater. split.
    + intros (r & Hr & Hpk & Hrow)%on_a_page_iff.
      apply on_a_page_iff. exists r. split; [|done].
      apply elem_of_index_post_list in Hr as (? & ? & ? & ? & ?).
      apply elem_of_index_post_list. repeat split; try done. lia.
    + intros request resp. rewrite !(post_detail_found _ _ _ _ _ Hid).
      destruct (decide (Post.pub_date p ≤ now)) as [Hnow|Hnow].
      * rewrite (bool_decide_eq_true_2 _ Hnow).
        by rewrite (bool_decide_eq_true_2 (Post.pub_date p ≤ later)) by lia.
      * rewrite (bool_decide_eq_false_2 _ Hnow). rewrite andb_false_r. simpl.
        destruct (is_authenticated request
                  && user_eq request (Post.author p)); [|done].
        simpl. by rewrite andb_false_r.
Qed.

(** ** The further properties on the example blog *)

Lemma example_public_on_home_feed :
  mkRow 1 Example.post_public 2 ∈ index_post_list Example.store Example.clock.
Proof.
  apply elem_of_index_post_list. simpl.
  split; [by vm_compute|]. split; [by vm_compute|]. split; [done|].
  split; [by exists 1%nat, Example.news|]. by vm_compute.
Qed.

Lemma anonymous_sent_to_login_witness :
  let request :=
    mkRequest "POST" "/posts/1/delete/?page=2" None {[ "page" := "2" ]} ∅ ∅ in
  user request = None
  ∧ handle Example.PostForm_clean true Example.store Example.clock request
      (route_post_delete 1)
    = (Example.store,
       inr (Redirect (url_login "/posts/1/delete/?page=2"))).
Proof.
  intros request. split; [done|].
  apply (anonymous_sent_to_login Example.PostForm_clean true
           ExampleUsers.UserEditForm_clean Example.store Example.clock
           request (route_post_delete 1) eq_refl).
Defined.

Lemma delete_views_method_guard_witness :
  let request := Example.request "PUT" (Some Example.alice) ∅ in
  user request = Some Example.alice
  ∧ method request ∉ ["GET"; "POST"]
  ∧ post_delete Example.store request 1
    = (Example.store, inr (NotAllowed ["GET"; "POST"])).
Proof.
  intros request.
  assert (method request ∉ ["GET"; "POST"]) as Hm
    by (apply (bool_decide_unpack _); by vm_compute).
  split; [done|]. split; [done|].
  apply (delete_views_method_guard Example.store request Example.alice
           1 1 eq_refl Hm).
Defined.

Lemma missing_target_not_found_witness :
  let request := Example.request "POST" (Some Example.bob) ∅ in
  user request = Some Example.bob
  ∧ posts Example.store !! 9%nat = None
  ∧ add_comment Example.store Example.clock request 9
    = (Example.store, inl (Http404 "No Post matches the given query.")).
Proof.
  intros request. split; [done|]. split; [by vm_compute|].
  destruct (missing_target_not_found Example.PostForm_clean Example.store
              Example.clock request Example.bob eq_refl) as [Hpost _].
  destruct (Hpost 9%nat) as (_ & Hadd & _); [by vm_compute|done].
Defined.

Lemma only_post_writes_witness :
  let request := Example.request "GET" (Some Example.alice) ∅ in
  method request ≠ "POST"
  ∧ POST request = ∅
  ∧ (handle Example.PostForm_clean true Example.store Example.clock request
       (route_post_delete 1)).1 = Example.store.
Proof.
  intros request.
  assert (method request ≠ "POST") as Hm by done.
  split; [done|]. split; [done|].
  apply (only_post_writes Example.PostForm_clean true
           ExampleUsers.UserEditForm_clean
           ExampleUsers.UserRegistrationForm_clean Example.store
           Example.clock request (route_post_delete 1) Hm eq_refl).
Defined.

Lemma comment_text_cleaned_witness :
  CommentForm_clean {[ "text" := " hi " ]} = Some "hi"
  ∧ stripped "hi"
  ∧ CommentForm_clean {[ "text" := ExampleText.padded ]} = Some "hi"
  ∧ CommentForm_clean {[ "text" := ExampleText.no_break_space ]} = None
  ∧ CommentForm_clean {[ "text" := ExampleText.with_null ]} = None.
Proof.
  assert (CommentForm_clean {[ "text" := " hi " ]} = Some "hi") as Hclean
    by (by vm_compute).
  split; [done|].
  destruct (comment_text_cleaned {[ "text" := " hi " ]}) as [Hsome _].
  destruct (Hsome "hi" Hclean) as (_ & _ & Hstripped & _).
  split; [done|].
  destruct (comment_text_cleaned {[ "text" := ExampleText.padded ]})
    as (_ & Hpadded & _).
  destruct (Hpadded ExampleText.padded) as [_ Haccept]; [by vm_compute|].
  destruct (comment_text_cleaned {[ "text" := ExampleText.no_break_space ]})
    as (_ & Hspace & _).
  destruct (Hspace ExampleText.no_break_space) as [Hblank _];
    [by vm_compute|].
  destruct (comment_text_cleaned {[ "text" := ExampleText.with_null ]})
    as (_ & Hnull & _).
  destruct (Hnull ExampleText.with_null) as [Hreject _]; [by vm_compute|].
  split; [|split].
  - rewrite Haccept; by vm_compute.
  - apply Hblank. left. by vm_compute.
  - apply Hreject. right. by vm_compute.
Defined.

Lemma only_own_rows_written_witness :
  let request := Example.request "POST" (Some Example.bob) ∅ in
  user request = Some Example.bob
  ∧ (Comment.author Example.comment_bob = Example.bob.1
     ∨ ∃ p, posts Example.store !! Comment.post Example.comment_bob = Some p
            ∧ Post.author p = Example.bob.1
            ∧ posts (handle Example.PostForm_clean true Example.store
                       Example.clock request (route_delete_comment 1 1)).1
                !! Comment.post Example.comment_bob = None).
Proof.
  intros request. split; [done|].
  destruct (only_own_rows_written Example.PostForm_clean true Example.store
              Example.clock request (route_delete_comment 1 1) Example.bob
              eq_refl) as [_ Hcomments].
  apply (Hcomments 1%nat Example.comment_bob); by vm_compute.
Defined.

Lemma fields_no_request_changes_witness :
  let request :=
    Example.request "POST" (Some Example.bob) {[ "text" := "edited" ]} in
  let st' := (handle Example.PostForm_clean true Example.store Example.clock
                request (route_edit_comment 1 1)).1 in
  comments st' !! 1%nat = Some (Comment.mk "edited" 50 1 2)
  ∧ Comment.author (Comment.mk "edited" 50 1 2)
    = Comment.author Example.comment_bob.
Proof.
  intros request st'.
  assert (comments st' !! 1%nat = Some (Comment.mk "edited" 50 1 2)) as Hc'
    by (by vm_compute).
  split; [done|].
  destruct (fields_no_request_changes Example.PostForm_clean true
              Example.store Example.clock request (route_edit_comment 1 1))
    as [Hcomments _].
  by destruct (Hcomments 1%nat Example.comment_bob
                 (Comment.mk "edited" 50 1 2) eq_refl Hc') as [? _].
Defined.

Lemma run_keeps_users_and_categories_witness :
  let requests :=
    [(Example.clock, Example.request "POST" (Some Example.bob)
                       {[ "text" := "one" ]}, route_add_comment 1);
     (Example.clock, Example.request "POST" (Some Example.alice) ∅,
      route_post_delete 1)] in
  users (run Example.PostForm_clean true Example.store requests)
  = users Example.store.
Proof.
  intros requests.
  apply (run_keeps_users_and_categories Example.PostForm_clean true requests
           Example.store).
Defined.

Lemma comment_added_witness :
  let request :=
    Example.request "POST" (Some Example.bob)
      {[ "text" := ExampleText.padded ]} in
  user request = Some Example.bob
  ∧ posts Example.store !! 4%nat = Some Example.post_unpublished
  ∧ CommentForm_clean (POST request) = Some "hi"
  ∧ comments (add_comment Example.store Example.clock request 4).1
      !! next_pk (comments Example.store)
    = Some (Comment.mk "hi" Example.clock 4 Example.bob.1)
  ∧ count_comments (add_comment Example.store Example.clock request 4).1 4
    = S (count_comments Example.store 4).
Proof.
  intros request. split; [done|]. split; [by vm_compute|].
  split; [by vm_compute|].
  destruct (comment_added Example.store Example.clock request Example.bob
              4 Example.post_unpublished "hi")
    as (_ & _ & Hnew & _ & _ & Hcount & _); [by vm_compute..|].
  split; [exact Hnew|exact Hcount].
Defined.

Lemma owner_edits_comment_witness :
  let request :=
    Example.request "POST" (Some Example.bob)
      {[ "text" := ExampleText.padded ]} in
  user request = Some Example.bob
  ∧ comments Example.store !! 1%nat = Some Example.comment_bob
  ∧ CommentForm_clean (POST request) = Some "hi"
  ∧ comments (edit_comment Example.store request 1 1).1 !! 1%nat
    = Some (Comment.mk "hi" 50 1 2).
Proof.
  intros request. split; [done|]. split; [by vm_compute|].
  split; [by vm_compute|].
  destruct (owner_edits_comment Example.store request Example.bob 1 1
              Example.comment_bob "hi")
    as (_ & Hsaved & _); [by vm_compute..|].
  exact Hsaved.
Defined.

Lemma owner_deletes_comment_witness :
  let request := Example.request "POST" (Some Example.bob) ∅ in
  user request = Some Example.bob
  ∧ comments Example.store !! 1%nat = Some Example.comment_bob
  ∧ count_comments Example.store 1
    = S (count_comments (delete_comment Example.store request 1 1).1 1).
Proof.
  intros request. split; [done|]. split; [by vm_compute|].
  destruct (owner_deletes_comment Example.store request Example.bob 1 1
              Example.comment_bob)
    as (_ & _ & _ & _ & Hcount & _); by vm_compute.
Defined.

Lemma owner_deletes_post_witness :
  let request := Example.request "POST" (Some Example.alice) ∅ in
  user request = Some Example.alice
  ∧ posts Example.store !! 1%nat = Some Example.post_public
  ∧ post_detail (post_delete Example.store request 1).1 Example.clock
      request 1
    = inl (Http404 "No Post matches the given query.").
Proof.
  intros request. split; [done|]. split; [by vm_compute|].
  destruct (owner_deletes_post Example.int_of_str Example.store request
              Example.alice 1 Example.post_public)
    as (_ & _ & _ & _ & Hdetail & _); [by vm_compute..|].
  apply Hdetail.
Defined.

Lemma no_write_without_redirect_witness :
  let request :=
    Example.request "POST" (Some Example.bob) {[ "title" := "t" ]} in
  (handle Example.PostForm_clean true Example.store Example.clock request
     route_post_create).1 = Example.store.
Proof.
  intros request.
  pose proof (no_write_without_redirect Example.PostForm_clean true
                ExampleUsers.UserEditForm_clean
                ExampleUsers.UserRegistrationForm_clean Example.store
                Example.clock request route_post_create) as Hno.
  cbv zeta in Hno. destruct Hno as [Hno _].
  assert ((handle Example.PostForm_clean true Example.store Example.clock
             request route_post_create).2
          = inr (Render "blog/create.html"
                   (ctx_create (mkForm (Some (POST request, ∅)) None))))
    as Hanswer by (by vm_compute).
  by rewrite Hanswer in Hno.
Defined.

Lemma created_post_is_listed_witness :
  let request :=
    Example.request "POST" (Some Example.bob)
      (<["title" := "t"]> (<["text" := "x"]> {[ "pub_date" := "7" ]})) in
  user request = Some Example.bob
  ∧ method request = "POST"
  ∧ on_a_page
      (profile_post_list
         (post_create Example.PostForm_clean true Example.store request).1 2)
      6 (Post.mk "t" "x" 7 2 None None None true).
Proof.
  intros request. split; [done|]. split; [done|].
  destruct (created_post_is_listed Example.PostForm_clean true Example.store
              request Example.bob (mkPostData "t" "x" 7 None None None))
    as (_ & _ & Hprofile & _); [by vm_compute..|].
  apply Hprofile.
Defined.

Lemma listings_agree_witness :
  on_a_page (index_post_list Example.store Example.clock)
    1 Example.post_public
  ∧ ∃ cs form,
      post_detail Example.store Example.clock (Example.request "GET" None ∅) 1
      = inr (Render "blog/detail.html"
               (ctx_detail (1%nat, Example.post_public) cs form)).
Proof.
  assert (on_a_page (index_post_list Example.store Example.clock)
            1 Example.post_public) as Hfeed.
  { apply on_a_page_iff. exists (mkRow 1 Example.post_public 2).
    split; [apply example_public_on_home_feed|done]. }
  split; [done|].
  destruct (listings_agree Example.store Example.clock) as [Hagree _].
  destruct (Hagree 1%nat Example.post_public Hfeed) as [Hdetail _].
  apply Hdetail.
Defined.

Lemma comment_count_is_listed_comments_witness :
  mkRow 1 Example.post_public 2 ∈ index_post_list Example.store Example.clock
  ∧ 2%nat = length (post_comments Example.store 1).
Proof.
  split; [apply example_public_on_home_feed|].
  apply (comment_count_is_listed_comments Example.store Example.clock
           (mkRow 1 Example.post_public 2)).
  left. apply example_public_on_home_feed.
Defined.



Lemma profile_edited_witness :
  let request :=
    Example.request "POST" (Some Example.bob) {[ "username" := "robert" ]} in
  user request = Some Example.bob
  ∧ method request = "POST"
  ∧ users (edit_profile ExampleUsers.UserEditForm_clean Example.store
             request).1 !! 2%nat
    = Some (User.mk "robert" "" "" "").
Proof.
  intros request. split; [done|]. split; [done|].
  destruct (profile_edited Example.int_of_str ExampleUsers.UserEditForm_clean
              Example.store request Example.bob (User.mk "robert" "" "" ""))
    as (_ & Hrow & _); [by vm_compute..|].
  apply Hrow.
Defined.

Lemma registration_adds_one_user_witness :
  let request :=
    Example.request "POST" None
      (<["username" := "carol"]> (<["password1" := "pw"]>
        (<["password2" := "pw"]> {[ "is_superuser" := "on" ]}))) in
  method request = "POST"
  ∧ users (registration ExampleUsers.UserRegistrationForm_clean
             Example.store request).1
    = <[3%nat := User.mk "carol" "" "" ""]> (users Example.store).
Proof.
  intros request. split; [done|].
  destruct (registration_adds_one_user
              ExampleUsers.UserRegistrationForm_clean Example.store request)
    as (_ & _ & _ & _ & _ & Hvalid & _).
  destruct (Hvalid (User.mk "carol" "" "" "")) as (_ & _ & Husers);
    [by vm_compute..|].
  rewrite Husers. by vm_compute.
Defined.

Lemma owner_edits_post_witness :
  let request :=
    Example.request "POST" (Some Example.alice)
      (<["title" := "t"]> (<["text" := "x"]> {[ "pub_date" := "7" ]})) in
  user request = Some Example.alice
  ∧ posts Example.store !! 4%nat = Some Example.post_unpublished
  ∧ posts (post_edit Example.PostForm_clean Example.store request 4).1
      !! 4%nat
    = Some (Post.mk "t" "x" 7 1 None None None false).
Proof.
  intros request. split; [done|]. split; [by vm_compute|].
  destruct (owner_edits_post Example.PostForm_clean Example.store request
              Example.alice 4 Example.post_unpublished
              (mkPostData "t" "x" 7 None None None))
    as (_ & Hsaved & _); [by vm_compute..|].
  apply Hsaved.
Defined.

Lemma listings_have_no_duplicates_witness :
  NoDup (pk <$> profile_post_list Example.store 1).
Proof.
  exact (proj2 (proj2 (listings_have_no_duplicates Example.store
                         Example.clock 1))).
Defined.

Lemma unpublished_category_hides_posts_witness :
  categories Example.store !! 2%nat = Some Example.drafts
  ∧ posts Example.store !! 3%nat = Some Example.post_in_drafts
  ∧ ¬ on_a_page (index_post_list Example.store Example.clock)
        3 Example.post_in_drafts.
Proof.
  split; [by vm_compute|]. split; [by vm_compute|].
  destruct (unpublished_category_hides_posts Example.int_of_str
              Example.store Example.clock 2 Example.drafts 3
              Example.post_in_drafts) as [Hhidden _]; [by vm_compute..|].
  apply Hhidden.
Defined.

Lemma publication_follows_the_clock_witness :
  posts Example.store !! 5%nat = Some Example.post_future
  ∧ Example.clock < Post.pub_date Example.post_future
  ∧ ¬ on_a_page (index_post_list Example.store Example.clock)
        5 Example.post_future.
Proof.
  assert (Example.clock < Post.pub_date Example.post_future) as Hfuture
    by (by vm_compute).
  split; [by vm_compute|]. split; [done|].
  destruct (publication_follows_the_clock Example.store Example.clock 5
              Example.post_future) as [Hbefore _]; [by vm_compute|].
  by destruct (Hbefore Hfuture) as [Hfeed _].
Defined.
